(** * The Anthropic adapter of letta: request building, response
      normalisation, error classification and tag stripping.

    Shallow embedding of [letta/llm_api/anthropic_client.py].  Python
    [str] values are Rocq strings read as sequences of code points below
    256; Python [int] is [Z]; [dict] values that travel as JSON are
    association lists in insertion order; an exception that leaves a
    function is the [Raise] case of [result]. *)

From Stdlib Require Import ZArith QArith Ascii String DecimalString.
From stdpp Require Import base option list strings gmap.

Local Open Scope string_scope.
Local Open Scope Z_scope.

#[local] Arguments String.append !s1 s2 : simpl nomatch.

(** ** Python exceptions raised by the module itself *)

Inductive py_error : Type :=
  | NotImplementedError (msg : string)
  | ValueError (msg : string)
  | AssertionError (msg : string)
  | RuntimeError (msg : string)
  | IndexError (msg : string)
  | HelperError (msg : string).  (* raised inside an imported helper *)

Inductive result (A : Type) : Type :=
  | Ok (a : A)
  | Raise (e : py_error).
Arguments Ok {A} a.
Arguments Raise {A} e.

Definition is_ok {A} (r : result A) : bool :=
  match r with Ok _ => true | Raise _ => false end.

(** ** Text helpers: the parts of [str] the module uses *)

Module Text.

Definition newline : ascii := ascii_of_nat 10.

Fixpoint starts_with (p s : string) : bool :=
  match p, s with
  | EmptyString, _ => true
  | String a p', String b s' => if Ascii.eqb a b then starts_with p' s' else false
  | String _ _, EmptyString => false
  end.

(** [sub in s] *)
Fixpoint contains (sub s : string) : bool :=
  if starts_with sub s then true
  else match s with
       | EmptyString => false
       | String _ s' => contains sub s'
       end.

Fixpoint occurs (c : ascii) (s : string) : bool :=
  match s with
  | EmptyString => false
  | String a s' => if Ascii.eqb c a then true else occurs c s'
  end.

(** [s.replace(old, new)] for a non-empty [old]: occurrences are found
    left to right and do not overlap; [skip] counts the characters of
    the occurrence just replaced that are still to be dropped. *)
Fixpoint replace_go (old new : string) (skip : nat) (s : string) : string :=
  match s with
  | EmptyString => EmptyString
  | String c s' =>
      match skip with
      | S k => replace_go old new k s'
      | O =>
          if starts_with old s
          then new ++ replace_go old new (String.length old - 1) s'
          else String c (replace_go old new 0 s')
      end
  end.

(** With an empty [old] Python puts [new] before every character and
    at the end. *)
Fixpoint interleave (new s : string) : string :=
  match s with
  | EmptyString => new
  | String c s' => new ++ String c (interleave new s')
  end.

Definition replace (old new s : string) : string :=
  match old with
  | EmptyString => interleave new s
  | String _ _ => replace_go old new 0 s
  end.

End Text.

(** ** [remap_finish_reason] *)

Definition remap_finish_reason (stop_reason : string) : result string :=
  if String.eqb stop_reason "end_turn" then Ok "stop"
  else if String.eqb stop_reason "stop_sequence" then Ok "stop"
  else if String.eqb stop_reason "max_tokens" then Ok "length"
  else if String.eqb stop_reason "tool_use" then Ok "function_call"
  else Raise (ValueError ("Unexpected stop_reason: " ++ stop_reason)).

(** ** [strip_xml_tags_streaming] *)

Definition parts_to_remove (tag : string) : list string :=
  [ "<";
    "<" ++ tag;
    "</" ++ tag;
    "/" ++ tag ++ ">";
    tag ++ ">";
    "/" ++ tag;
    ">" ].

Definition strip_xml_tags_streaming (s : string) (tag : option string) : string :=
  match tag with
  | None => s
  | Some t =>
      fold_left (fun res part => Text.replace part EmptyString res) (parts_to_remove t) s
  end.

(** ** [strip_xml_tags]: the fragment of [re] its pattern needs *)

Module Re.

(** The pattern [<TAG.*?>|</TAG>] uses literals, the lazy [.*?],
    concatenation and ordered alternation. *)
Inductive regex : Type :=
  | Lit (p : string)
  | AnyLazy
  | Cat (r1 r2 : regex)
  | Alt (r1 r2 : regex).

Fixpoint strip_prefix (p s : string) : option string :=
  match p, s with
  | EmptyString, _ => Some s
  | String a p', String b s' => if Ascii.eqb a b then strip_prefix p' s' else None
  | String _ _, EmptyString => None
  end.

(** [.*?] followed by the continuation [k]: the shortest run first;
    [.] does not match a line feed.  [n] counts consumed characters. *)
Fixpoint lazy_any (k : nat -> string -> option nat) (n : nat) (s : string) : option nat :=
  match k n s with
  | Some m => Some m
  | None =>
      match s with
      | EmptyString => None
      | String c s' =>
          if Ascii.eqb c Text.newline then None else lazy_any k (S n) s'
      end
  end.

(** Backtracking matcher anchored at the start of [s]; the result is
    the length of the first match in priority order. *)
Fixpoint rmatch (r : regex) (k : nat -> string -> option nat) (n : nat) (s : string) : option nat :=
  match r with
  | Lit p =>
      match strip_prefix p s with
      | Some s' => k (n + String.length p)%nat s'
      | None => None
      end
  | AnyLazy => lazy_any k n s
  | Cat r1 r2 => rmatch r1 (rmatch r2 k) n s
  | Alt r1 r2 =>
      match rmatch r1 k n s with
      | Some m => Some m
      | None => rmatch r2 k n s
      end
  end.

Definition match_at (r : regex) (s : string) : option nat :=
  rmatch r (fun n _ => Some n) 0%nat s.

(** [re.sub(r, repl, s)] with a literal replacement: scan left to
    right, replace the match found at the current position and resume
    after it, else keep the character. *)
Fixpoint sub_go (r : regex) (repl : string) (skip : nat) (s : string) : string :=
  match s with
  | EmptyString =>
      match skip, match_at r EmptyString with
      | O, Some _ => repl
      | _, _ => EmptyString
      end
  | String c s' =>
      match skip with
      | S k => sub_go r repl k s'
      | O =>
          match match_at r s with
          | Some (S m) => repl ++ sub_go r repl m s'
          | Some O => repl ++ String c (sub_go r repl 0 s')
          | None => String c (sub_go r repl 0 s')
          end
      end
  end.

Definition sub (r : regex) (repl s : string) : string := sub_go r repl 0 s.



End Re.

(** [f"<{tag}.*?>|</{tag}>"], compiled; faithful for a [tag] with
    [Re.plain tag = true]. *)
Definition tag_pattern (tag : string) : Re.regex :=
  Re.Alt (Re.Cat (Re.Lit ("<" ++ tag)) (Re.Cat Re.AnyLazy (Re.Lit ">")))
         (Re.Lit ("</" ++ tag ++ ">")).

Definition strip_xml_tags (s : string) (tag : option string) : string :=
  match tag with
  | None => s
  | Some t => Re.sub (tag_pattern t) EmptyString s
  end.

(** ** JSON values and [json.dumps(value, indent=2)] *)

(** A [dict] keeps its insertion order, which [json.dumps] follows, so an
    object is an association list.  Floats do not occur in the values the
    claims are about and are left out. *)
#[local] Set Warnings "-register-all".

Inductive json : Type :=
  | JNull
  | JBool (b : bool)
  | JInt (z : Z)
  | JStr (s : string)
  | JArr (items : list json)
  | JObj (fields : list (string * json)).

Module Json.

Definition hex_digit (n : nat) : ascii :=
  match n with
  | 0 => "0" | 1 => "1" | 2 => "2" | 3 => "3" | 4 => "4" | 5 => "5"
  | 6 => "6" | 7 => "7" | 8 => "8" | 9 => "9" | 10 => "a" | 11 => "b"
  | 12 => "c" | 13 => "d" | 14 => "e" | _ => "f"
  end%nat%char.

Definition backslash : ascii := ascii_of_nat 92.
Definition dquote : ascii := ascii_of_nat 34.

Definition esc (c : ascii) : string := String backslash (String c EmptyString).

(** One character under [ensure_ascii=True]. *)
Definition escape_char (c : ascii) : string :=
  let n := nat_of_ascii c in
  if Nat.eqb n 34 then esc dquote
  else if Nat.eqb n 92 then esc backslash
  else if Nat.eqb n 10 then esc "n"
  else if Nat.eqb n 13 then esc "r"
  else if Nat.eqb n 9 then esc "t"
  else if Nat.eqb n 8 then esc "b"
  else if Nat.eqb n 12 then esc "f"
  else if Nat.leb 32 n && Nat.leb n 126 then String c EmptyString
  else esc "u" ++ "00" ++
       String (hex_digit (n / 16)) (String (hex_digit (n mod 16)) EmptyString).

Fixpoint escape (s : string) : string :=
  match s with
  | EmptyString => EmptyString
  | String c s' => escape_char c ++ escape s'
  end.

Definition quote : string := String dquote EmptyString.

Definition encode_str (s : string) : string := quote ++ escape s ++ quote.

Definition encode_int (z : Z) : string := NilZero.string_of_int (Z.to_int z).

Fixpoint spaces (n : nat) : string :=
  match n with
  | O => EmptyString
  | S n' => String " " (spaces n')
  end.

(** ['\n' + indent * level] with [indent = 2]. *)
Definition newline_indent (level : nat) : string :=
  String Text.newline (spaces (2 * level)).

Fixpoint dumps_at (level : nat) (j : json) : string :=
  match j with
  | JNull => "null"
  | JBool true => "true"
  | JBool false => "false"
  | JInt z => encode_int z
  | JStr s => encode_str s
  | JArr items =>
      match items with
      | [] => "[]"
      | x :: rest =>
          "[" ++ newline_indent (S level) ++ dumps_at (S level) x ++
          (fix tail (l : list json) : string :=
             match l with
             | [] => EmptyString
             | y :: l' => "," ++ newline_indent (S level) ++ dumps_at (S level) y ++ tail l'
             end) rest ++
          newline_indent level ++ "]"
      end
  | JObj fields =>
      match fields with
      | [] => "{}"
      | (k, v) :: rest =>
          "{" ++ newline_indent (S level) ++ encode_str k ++ ": " ++ dumps_at (S level) v ++
          (fix tail (l : list (string * json)) : string :=
             match l with
             | [] => EmptyString
             | (k', v') :: l' =>
                 "," ++ newline_indent (S level) ++ encode_str k' ++ ": " ++
                 dumps_at (S level) v' ++ tail l'
             end) rest ++
          newline_indent level ++ "}"
      end
  end.

Definition dumps_indent2 (j : json) : string := dumps_at 0 j.

End Json.

(** ** Provider message dicts and [merge_tool_results_into_user_messages] *)

(** The dict [{"role": ..., "content": ...}] that [to_anthropic_dict]
    produces; [content] is a string or a list of content blocks. *)
Record amsg : Type := AMsg {
  am_role : string;
  am_content : json
}.

Definition set_content (m : amsg) (c : json) : amsg :=
  {| am_role := am_role m; am_content := c |}.

Definition text_block (c : json) : json :=
  JObj [("type", JStr "text"); ("text", c)].

(** [content if isinstance(content, list) else [{"type": "text", "text": content}]] *)
Definition content_blocks (c : json) : list json :=
  match c with
  | JArr blocks => blocks
  | _ => [text_block c]
  end.

Definition is_user (m : amsg) : bool := String.eqb (am_role m) "user".

(** The [for] loop: [current] is [current_message], [merged] is
    [merged_messages]. *)
Fixpoint merge_loop (current : amsg) (rest merged : list amsg) : list amsg :=
  match rest with
  | [] => merged ++ [current]
  | next :: rest' =>
      if is_user current && is_user next
      then merge_loop
             (set_content current
                (JArr (content_blocks (am_content current) ++ content_blocks (am_content next))))
             rest' merged
      else merge_loop next rest' (merged ++ [current])
  end.

Definition merge_tool_results_into_user_messages (messages : list amsg) : list amsg :=
  match messages with
  | [] => []
  | first :: rest => merge_loop first rest []
  end.

(** The same loop over object identities.  The dicts live in a store
    keyed by identity, [messages] is a list of identities, and
    [current_message["content"] = merged_content] updates the dict that
    every occurrence of that identity shares. *)
Module Heap.

#[export] Instance amsg_inhabited : Inhabited amsg :=
  populate (AMsg EmptyString JNull).

Definition deref (st : gmap nat amsg) (r : nat) : amsg := st !!! r.

Fixpoint merge_loop (st : gmap nat amsg) (current : nat) (rest merged : list nat)
  : gmap nat amsg * list nat :=
  match rest with
  | [] => (st, (merged ++ [current])%list)
  | next :: rest' =>
      if is_user (deref st current) && is_user (deref st next)
      then
        let merged_content :=
          JArr (content_blocks (am_content (deref st current)) ++
                content_blocks (am_content (deref st next))) in
        merge_loop (<[current := set_content (deref st current) merged_content]> st)
                   current rest' merged
      else merge_loop st next rest' (merged ++ [current])
  end.

Definition merge_tool_results_into_user_messages
    (st : gmap nat amsg) (messages : list nat) : gmap nat amsg * list nat :=
  match messages with
  | [] => (st, [])
  | first :: rest => merge_loop st first rest []
  end.

(** What a reader of the list sees. *)
Definition view (st : gmap nat amsg) (refs : list nat) : list amsg :=
  map (deref st) refs.

End Heap.

(** *** Vocabulary for statements about the merge *)

(** Two neighbours of the list both have role [user]. *)
Fixpoint adjacent_users (l : list amsg) : bool :=
  match l with
  | a :: ((b :: _) as t) => (is_user a && is_user b) || adjacent_users t
  | _ => false
  end.



(** The content blocks of the messages of a run, in order, a scalar
    content counting as one text block. *)
Definition run_blocks (run : list amsg) : list json :=
  concat (map (fun m => content_blocks (am_content m)) run).

(** [current_message] after the loop has taken in the messages [us]. *)
Definition absorb (current : amsg) (us : list amsg) : amsg :=
  fold_left
    (fun cur next =>
       set_content cur
         (JArr (content_blocks (am_content cur) ++ content_blocks (am_content next))))
    us current.

(** ** Tools *)

Record FunctionSchema : Type := {
  fn_name : string;
  fn_description : option string;
  fn_parameters : option (list (string * json))
}.

Record anthropic_tool : Type := {
  at_name : string;
  at_description : option string;
  at_input_schema : list (string * json)
}.

Definition default_input_schema : list (string * json) :=
  [("type", JStr "object"); ("properties", JObj []); ("required", JArr [])].

(** [tool.function.parameters or {...}]: [None] and the empty dict are
    both falsy. *)
Definition convert_tool (f : FunctionSchema) : anthropic_tool :=
  {| at_name := fn_name f;
     at_description := fn_description f;
     at_input_schema :=
       match fn_parameters f with
       | None | Some [] => default_input_schema
       | Some (p :: ps) => p :: ps
       end |}.

Definition convert_tools_to_anthropic_format (tools : list FunctionSchema) : list anthropic_tool :=
  map convert_tool tools.

(** ** Client state *)

Record LLMConfig : Type := {
  model : string;
  max_tokens : option Z;
  temperature : Q;
  enable_reasoner : bool;
  max_reasoning_tokens : option Z;
  put_inner_thoughts_in_kwargs : option bool
}.

Record AnthropicClient : Type := {
  use_tool_naming : bool;
  llm_config : LLMConfig
}.

(** [self.llm_config.put_inner_thoughts_in_kwargs = True] *)
Definition force_inner_thoughts (self : AnthropicClient) : AnthropicClient :=
  {| use_tool_naming := use_tool_naming self;
     llm_config :=
       {| model := model (llm_config self);
          max_tokens := max_tokens (llm_config self);
          temperature := temperature (llm_config self);
          enable_reasoner := enable_reasoner (llm_config self);
          max_reasoning_tokens := max_reasoning_tokens (llm_config self);
          put_inner_thoughts_in_kwargs := Some true |} |}.

(** Truth value of an [Optional[bool]]. *)
Definition truthy (b : option bool) : bool :=
  match b with Some true => true | _ => false end.

(** ** A method of the client: reads and writes [self], may raise *)

Definition M (A : Type) : Type := AnthropicClient -> result A * AnthropicClient.

Definition ret {A} (a : A) : M A := fun self => (Ok a, self).
Definition raise {A} (e : py_error) : M A := fun self => (Raise e, self).
Definition bind {A B} (m : M A) (f : A -> M B) : M B :=
  fun self =>
    match m self with
    | (Ok a, self') => f a self'
    | (Raise e, self') => (Raise e, self')
    end.
Definition get_self : M AnthropicClient := fun self => (Ok self, self).
Definition get_config : M LLMConfig := fun self => (Ok (llm_config self), self).
Definition modify_self (f : AnthropicClient -> AnthropicClient) : M unit :=
  fun self => (Ok tt, f self).
Definition lift {A} (r : result A) : M A := fun self => (r, self).

Notation "'let*' x ':=' m 'in' k" := (bind m (fun x => k))
  (at level 10, x name, m at level 100, k at level 200).
Notation "'perform' m 'in' k" := (bind m (fun _ => k))
  (at level 10, m at level 100, k at level 200).

Definition when (b : bool) (m : M unit) : M unit := if b then m else ret tt.

(** A list comprehension whose element expression may raise. *)
Fixpoint map_result {A B} (f : A -> result B) (l : list A) : result (list B) :=
  match l with
  | [] => Ok []
  | x :: l' =>
      match f x with
      | Raise e => Raise e
      | Ok y =>
          match map_result f l' with
          | Raise e => Raise e
          | Ok ys => Ok (y :: ys)
          end
      end
  end.

(** ** [AnthropicClient.build_request_data] *)

Record thinking_config : Type := {
  thinking_type : string;
  budget_tokens : Z
}.

(** The returned [data] dict; [thinking] and [tools] are keys that may
    be absent. *)
Record request_data : Type := {
  rd_model : string;
  rd_max_tokens : Z;
  rd_temperature : Q;
  rd_thinking : option thinking_config;
  rd_tools : option (list anthropic_tool);
  rd_system : json;
  rd_messages : list amsg
}.

Definition DUMMY_FIRST_USER_MESSAGE : string := "User initializing bootup sequence.".

Definition inner_thoughts_xml_tag : string := "thinking".

Definition dummy_first_user_message : amsg :=
  AMsg "user" (JStr DUMMY_FIRST_USER_MESSAGE).

(** [{"role": "assistant", "content": f"<{inner_thoughts_xml_tag}>"}] *)
Definition prefix_fill_message : amsg :=
  AMsg "assistant" (JStr ("<" ++ inner_thoughts_xml_tag ++ ">")).

Definition not_system_error (role : string) : py_error :=
  RuntimeError ("First message is not a system message, instead has role " ++ role).

Definition index_error : py_error := IndexError "list index out of range".

Section Builder.

(** Parts of the repository that this module imports:
    [letta.schemas.message.Message] with its method
    [to_anthropic_dict], [letta.llm_api.helpers.add_inner_thoughts_to_functions]
    and the two constants of [letta.local_llm.constants]. *)
Variable PydanticMessage : Type.
Variable to_anthropic_dict : PydanticMessage -> string -> bool -> result amsg.
Variable add_inner_thoughts_to_functions :
  list FunctionSchema -> string -> string -> result (list FunctionSchema).
Variable INNER_THOUGHTS_KWARG : string.
Variable INNER_THOUGHTS_KWARG_DESCRIPTION : string.

(** The block under [if self.llm_config.enable_reasoner]: the value of
    [data["thinking"]], of [data["temperature"]] and of [prefix_fill]. *)
Definition extended_thinking (cfg : LLMConfig) (mt : Z)
  : M (option thinking_config * Q * bool) :=
  if enable_reasoner cfg then
    match max_reasoning_tokens cfg with
    | Some budget =>
        if budget <? mt then
          if truthy (put_inner_thoughts_in_kwargs cfg)
          then raise (AssertionError
                        "extended thinking not compatible with put_inner_thoughts_in_kwargs")
          else ret (Some {| thinking_type := "enabled"; budget_tokens := budget |}, 1%Q, false)
        else raise (AssertionError "max tokens must be greater than thinking budget")
    | None => raise (AssertionError "max tokens must be greater than thinking budget")
    end
  else ret (None, temperature cfg, true).

Definition select_tools (tools : list FunctionSchema) (force_tool_call : option string)
  : list FunctionSchema :=
  match force_tool_call with
  | Some name => List.filter (fun f => String.eqb (fn_name f) name) tools
  | None => tools
  end.

(** [# Ensure first message is user]; [data["messages"][0]] raises on
    an empty list. *)
Definition ensure_first_user (rest : list amsg) : result (list amsg) :=
  match rest with
  | [] => Raise index_error
  | second :: _ =>
      if negb (String.eqb (am_role second) "user")
      then Ok (dummy_first_user_message :: rest)
      else Ok rest
  end.

(** From [data["messages"]] as translated to the [system] field and
    the returned message list. *)
Definition arrange_messages (msgs : list amsg) (prefill : bool)
  : result (json * list amsg) :=
  match msgs with
  | [] => Raise index_error
  | first :: rest =>
      if negb (String.eqb (am_role first) "system")
      then Raise (not_system_error (am_role first))
      else
        match ensure_first_user rest with
        | Raise e => Raise e
        | Ok with_user =>
            let merged := merge_tool_results_into_user_messages with_user in
            Ok (am_content first,
                if prefill then (merged ++ [prefix_fill_message])%list else merged)
        end
  end.

Definition build_request_data
    (messages : list PydanticMessage) (tools : list FunctionSchema)
    (tool_call : option string) (force_tool_call : option string) : M request_data :=
  let* self := get_self in
  if negb (use_tool_naming self)
  then raise (NotImplementedError "Only tool calling supported on Anthropic API requests")
  else
    let* cfg := get_config in
    match max_tokens cfg with
    | None | Some 0 => raise (ValueError "Max  tokens must be set for anthropic")
    | Some mt =>
        let data_model := model cfg in
        let* reasoning := extended_thinking cfg mt in
        let '(thinking, temp, prefix_fill) := reasoning in
        let tools_for_request := select_tools tools force_tool_call in
        perform (match force_tool_call with
                 | Some _ => modify_self force_inner_thoughts
                 | None => ret tt
                 end) in
        let* cfg := get_config in
        let* tools_for_request :=
          if (0 <? length tools_for_request)%nat
             && truthy (put_inner_thoughts_in_kwargs cfg)
          then lift (add_inner_thoughts_to_functions tools_for_request
                       INNER_THOUGHTS_KWARG INNER_THOUGHTS_KWARG_DESCRIPTION)
          else ret tools_for_request in
        let data_tools :=
          if (0 <? length tools_for_request)%nat
          then Some (convert_tools_to_anthropic_format tools_for_request)
          else None in
        let* cfg := get_config in
        let* msgs :=
          lift (map_result
                  (fun m => to_anthropic_dict m inner_thoughts_xml_tag
                              (truthy (put_inner_thoughts_in_kwargs cfg)))
                  messages) in
        let* cfg := get_config in
        let prefill :=
          prefix_fill && negb (truthy (put_inner_thoughts_in_kwargs cfg))
          && negb (Text.contains "opus" data_model) in
        let* arranged := lift (arrange_messages msgs prefill) in
        let '(system, final) := arranged in
        ret {| rd_model := data_model;
               rd_max_tokens := mt;
               rd_temperature := temp;
               rd_thinking := thinking;
               rd_tools := data_tools;
               rd_system := system;
               rd_messages := final |}
    end.

(** *** Vocabulary for statements about [build_request_data] *)

(** The tools of the request after the inner-thoughts argument has
    been added where it applies ([kw]: the flag as read at that
    point). *)
Definition tools_with_kwarg (tools : list FunctionSchema) (force_tool_call : option string)
    (kw : bool) : result (list FunctionSchema) :=
  if (0 <? length (select_tools tools force_tool_call))%nat && kw
  then add_inner_thoughts_to_functions (select_tools tools force_tool_call)
         INNER_THOUGHTS_KWARG INNER_THOUGHTS_KWARG_DESCRIPTION
  else Ok (select_tools tools force_tool_call).

(** The list comprehension over [messages]. *)
Definition translated (messages : list PydanticMessage) (kw : bool) : result (list amsg) :=
  map_result (fun m => to_anthropic_dict m inner_thoughts_xml_tag kw) messages.

End Builder.

(** The returned list: the merged messages, then the priming message
    when it applies. *)
Definition with_prefill (prefill : bool) (merged : list amsg) : list amsg :=
  if prefill then (merged ++ [prefix_fill_message])%list else merged.

(** [data["thinking"]] and [data["temperature"]] as the reasoner block
    leaves them when it does not raise. *)
Definition reasoning_of (cfg : LLMConfig) : option thinking_config * Q :=
  if enable_reasoner cfg then
    match max_reasoning_tokens cfg with
    | Some budget => (Some {| thinking_type := "enabled"; budget_tokens := budget |}, 1%Q)
    | None => (None, temperature cfg)
    end
  else (None, temperature cfg).

(** The [data] dict that a call returns, from the values that go into
    it. *)
Definition payload (self : AnthropicClient) (mt : Z)
    (tools_for_request : list FunctionSchema) (system : json) (final : list amsg)
  : request_data :=
  {| rd_model := model (llm_config self);
     rd_max_tokens := mt;
     rd_temperature := snd (reasoning_of (llm_config self));
     rd_thinking := fst (reasoning_of (llm_config self));
     rd_tools :=
       if (0 <? length tools_for_request)%nat
       then Some (convert_tools_to_anthropic_format tools_for_request)
       else None;
     rd_system := system;
     rd_messages := final |}.

(** The configuration gets through the checks that come before the
    tools: tool naming on, [max_tokens] set and not zero, and with the
    reasoner on a budget below [max_tokens] and inner thoughts not in
    the tool arguments. *)
Definition config_accepted (self : AnthropicClient) : bool :=
  use_tool_naming self &&
  match max_tokens (llm_config self) with
  | Some mt =>
      negb (mt =? 0) &&
      (if enable_reasoner (llm_config self) then
         match max_reasoning_tokens (llm_config self) with
         | Some budget =>
             (budget <? mt) && negb (truthy (put_inner_thoughts_in_kwargs (llm_config self)))
         | None => false
         end
       else true)
  | None => false
  end.

(** [self] once the tools have been selected. *)
Definition after_tool_selection (self : AnthropicClient) (force_tool_call : option string)
  : AnthropicClient :=
  match force_tool_call with
  | Some _ => force_inner_thoughts self
  | None => self
  end.

Definition kwargs_mode (self : AnthropicClient) (force_tool_call : option string) : bool :=
  truthy (put_inner_thoughts_in_kwargs (llm_config (after_tool_selection self force_tool_call))).

Definition prefill_applies (self : AnthropicClient) (force_tool_call : option string) : bool :=
  negb (enable_reasoner (llm_config self))
  && negb (kwargs_mode self force_tool_call)
  && negb (Text.contains "opus" (model (llm_config self))).

(** ** [AnthropicClient.handle_llm_error] *)

(** The exception classes of the [anthropic] package, and everything
    else. *)
Inductive anthropic_class : Type :=
  | AnthropicError
  | APIError
  | APIResponseValidationError
  | APIStatusError
  | APIConnectionError
  | APITimeoutError
  | BadRequestError
  | AuthenticationError
  | PermissionDeniedError
  | NotFoundError
  | ConflictError
  | UnprocessableEntityError
  | RateLimitError
  | InternalServerError.

Inductive exception_class : Type :=
  | Sdk (c : anthropic_class)
  | Foreign (name : string).

(** The direct base class inside the package ([None]: the base is
    [Exception]). *)
Definition base_class (c : anthropic_class) : option anthropic_class :=
  match c with
  | AnthropicError => None
  | APIError => Some AnthropicError
  | APIResponseValidationError => Some APIError
  | APIStatusError => Some APIError
  | APIConnectionError => Some APIError
  | APITimeoutError => Some APIConnectionError
  | BadRequestError => Some APIStatusError
  | AuthenticationError => Some APIStatusError
  | PermissionDeniedError => Some APIStatusError
  | NotFoundError => Some APIStatusError
  | ConflictError => Some APIStatusError
  | UnprocessableEntityError => Some APIStatusError
  | RateLimitError => Some APIStatusError
  | InternalServerError => Some APIStatusError
  end.

Definition anthropic_class_eqb (a b : anthropic_class) : bool :=
  match a, b with
  | AnthropicError, AnthropicError
  | APIError, APIError
  | APIResponseValidationError, APIResponseValidationError
  | APIStatusError, APIStatusError
  | APIConnectionError, APIConnectionError
  | APITimeoutError, APITimeoutError
  | BadRequestError, BadRequestError
  | AuthenticationError, AuthenticationError
  | PermissionDeniedError, PermissionDeniedError
  | NotFoundError, NotFoundError
  | ConflictError, ConflictError
  | UnprocessableEntityError, UnprocessableEntityError
  | RateLimitError, RateLimitError
  | InternalServerError, InternalServerError => true
  | _, _ => false
  end.

(** [issubclass(c, target)], walking up the bases; the hierarchy is at
    most four classes deep. *)
Fixpoint subclass_upto (depth : nat) (c target : anthropic_class) : bool :=
  anthropic_class_eqb c target ||
  match depth, base_class c with
  | S d, Some b => subclass_upto d b target
  | _, _ => false
  end.

Definition issubclass (c target : anthropic_class) : bool := subclass_upto 4 c target.

(** What the classifier reads of an exception: its class, [str(e)],
    [str(e.__cause__)] when the cause is set, and the attributes
    [status_code] and [str(e.response)] when the object has them. *)
Record py_exception : Type := {
  exc_class : exception_class;
  exc_str : string;
  exc_cause : option string;
  exc_status_code : option Z;
  exc_response : option string
}.

Definition isinstance (e : py_exception) (target : anthropic_class) : bool :=
  match exc_class e with
  | Sdk c => issubclass c target
  | Foreign _ => false
  end.

Inductive error_kind : Type :=
  | LLMConnectionError
  | LLMRateLimitError
  | LLMBadRequestError
  | LLMAuthenticationError
  | LLMPermissionDeniedError
  | LLMNotFoundError
  | LLMUnprocessableEntityError
  | LLMServerError.

Inductive ErrorCode : Type :=
  | INTERNAL_SERVER_ERROR
  | RATE_LIMIT_EXCEEDED.

Inductive error_details : Type :=
  | NoDetails
  | CauseDetails (cause : option string)
  | StatusDetails (status_code : option Z) (response : option string).

Record llm_error : Type := {
  err_kind : error_kind;
  err_message : string;
  err_code : ErrorCode;
  err_details : error_details
}.

Section Classifier.

(** [LLMClientBase.handle_llm_error], reached through [super()], and
    the type of what it returns. *)
Variable BaseError : Type.
Variable base_handle_llm_error : py_exception -> BaseError.

Inductive handled : Type :=
  | Classified (err : llm_error)
  | Delegated (err : BaseError).

(** The logger calls are left out: they do not change the result. *)
Definition handle_llm_error (e : py_exception) : handled :=
  if isinstance e APIConnectionError then
    Classified {| err_kind := LLMConnectionError;
                  err_message := "Failed to connect to Anthropic: " ++ exc_str e;
                  err_code := INTERNAL_SERVER_ERROR;
                  err_details := CauseDetails (exc_cause e) |}
  else if isinstance e RateLimitError then
    Classified {| err_kind := LLMRateLimitError;
                  err_message := "Rate limited by Anthropic: " ++ exc_str e;
                  err_code := RATE_LIMIT_EXCEEDED;
                  err_details := NoDetails |}
  else if isinstance e BadRequestError then
    Classified {| err_kind := LLMBadRequestError;
                  err_message := "Bad request to Anthropic: " ++ exc_str e;
                  err_code := INTERNAL_SERVER_ERROR;
                  err_details := NoDetails |}
  else if isinstance e AuthenticationError then
    Classified {| err_kind := LLMAuthenticationError;
                  err_message := "Authentication failed with Anthropic: " ++ exc_str e;
                  err_code := INTERNAL_SERVER_ERROR;
                  err_details := NoDetails |}
  else if isinstance e PermissionDeniedError then
    Classified {| err_kind := LLMPermissionDeniedError;
                  err_message := "Permission denied by Anthropic: " ++ exc_str e;
                  err_code := INTERNAL_SERVER_ERROR;
                  err_details := NoDetails |}
  else if isinstance e NotFoundError then
    Classified {| err_kind := LLMNotFoundError;
                  err_message := "Resource not found in Anthropic: " ++ exc_str e;
                  err_code := INTERNAL_SERVER_ERROR;
                  err_details := NoDetails |}
  else if isinstance e UnprocessableEntityError then
    Classified {| err_kind := LLMUnprocessableEntityError;
                  err_message := "Invalid request content for Anthropic: " ++ exc_str e;
                  err_code := INTERNAL_SERVER_ERROR;
                  err_details := NoDetails |}
  else if isinstance e APIStatusError then
    Classified {| err_kind := LLMServerError;
                  err_message := "Anthropic API error: " ++ exc_str e;
                  err_code := INTERNAL_SERVER_ERROR;
                  err_details := StatusDetails (exc_status_code e) (exc_response e) |}
  else Delegated (base_handle_llm_error e).

End Classifier.

Arguments Classified {BaseError} err.
Arguments Delegated {BaseError} err.

(** ** [AnthropicClient.convert_response_to_chat_completion] *)

(** The content blocks of [anthropic.types.Message]. *)
Inductive content_block : Type :=
  | TextBlock (text : string)
  | ToolUseBlock (id name : string) (input : json)
  | ThinkingBlock (thinking signature : string)
  | RedactedThinkingBlock (data : string).

Record AnthropicMessage : Type := {
  msg_id : string;
  msg_role : string;
  msg_content : list content_block;
  msg_model : string;
  msg_stop_reason : option string;
  usage_input_tokens : Z;
  usage_output_tokens : Z
}.

Record FunctionCall : Type := {
  fc_name : string;
  fc_arguments : string
}.

Record ToolCall : Type := {
  tc_id : string;
  tc_type : string;
  tc_function : FunctionCall
}.

Record ChoiceMessage : Type := {
  cm_role : string;
  cm_content : option string;
  cm_reasoning_content : option string;
  cm_reasoning_content_signature : option string;
  cm_redacted_reasoning_content : option string;
  cm_tool_calls : option (list ToolCall)
}.

Record Choice : Type := {
  ch_index : Z;
  ch_finish_reason : string;
  ch_message : ChoiceMessage
}.

Record UsageStatistics : Type := {
  prompt_tokens : Z;
  completion_tokens : Z;
  total_tokens : Z
}.

(** The local variables that the loop over [response.content] assigns. *)
Record scan_state : Type := {
  sc_content : option string;
  sc_reasoning_content : option string;
  sc_reasoning_content_signature : option string;
  sc_redacted_reasoning_content : option string;
  sc_tool_calls : option (list ToolCall)
}.

Definition scan_init : scan_state :=
  {| sc_content := None;
     sc_reasoning_content := None;
     sc_reasoning_content_signature := None;
     sc_redacted_reasoning_content := None;
     sc_tool_calls := None |}.

Definition scan_part (st : scan_state) (content_part : content_block) : scan_state :=
  match content_part with
  | TextBlock text =>
      {| sc_content := Some (strip_xml_tags text (Some "thinking"));
         sc_reasoning_content := sc_reasoning_content st;
         sc_reasoning_content_signature := sc_reasoning_content_signature st;
         sc_redacted_reasoning_content := sc_redacted_reasoning_content st;
         sc_tool_calls := sc_tool_calls st |}
  | ToolUseBlock id name input =>
      {| sc_content := sc_content st;
         sc_reasoning_content := sc_reasoning_content st;
         sc_reasoning_content_signature := sc_reasoning_content_signature st;
         sc_redacted_reasoning_content := sc_redacted_reasoning_content st;
         sc_tool_calls :=
           Some [ {| tc_id := id;
                     tc_type := "function";
                     tc_function := {| fc_name := name;
                                       fc_arguments := Json.dumps_indent2 input |} |} ] |}
  | ThinkingBlock thinking signature =>
      {| sc_content := sc_content st;
         sc_reasoning_content := Some thinking;
         sc_reasoning_content_signature := Some signature;
         sc_redacted_reasoning_content := sc_redacted_reasoning_content st;
         sc_tool_calls := sc_tool_calls st |}
  | RedactedThinkingBlock data =>
      {| sc_content := sc_content st;
         sc_reasoning_content := sc_reasoning_content st;
         sc_reasoning_content_signature := sc_reasoning_content_signature st;
         sc_redacted_reasoning_content := Some data;
         sc_tool_calls := sc_tool_calls st |}
  end.

(** [str(response.stop_reason)] *)
Definition str_of_stop_reason (r : option string) : string :=
  match r with
  | Some s => s
  | None => "None"
  end.

Section Normalizer.

(** [datetime] as returned by [get_utc_time()], and
    [letta.llm_api.helpers.unpack_all_inner_thoughts_from_kwargs]. *)
Variable datetime : Type.

Record ChatCompletionResponse : Type := {
  ccr_id : string;
  ccr_choices : list Choice;
  ccr_created : datetime;
  ccr_model : string;
  ccr_usage : UsageStatistics
}.

Variable unpack_all_inner_thoughts_from_kwargs :
  ChatCompletionResponse -> string -> result ChatCompletionResponse.
Variable INNER_THOUGHTS_KWARG : string.

(** The response as built before the inner-thoughts post-processing. *)
Definition assemble (response : AnthropicMessage) (finish_reason : string)
    (st : scan_state) (now : datetime) : ChatCompletionResponse :=
  {| ccr_id := msg_id response;
     ccr_choices :=
       [ {| ch_index := 0;
            ch_finish_reason := finish_reason;
            ch_message :=
              {| cm_role := msg_role response;
                 cm_content := sc_content st;
                 cm_reasoning_content := sc_reasoning_content st;
                 cm_reasoning_content_signature := sc_reasoning_content_signature st;
                 cm_redacted_reasoning_content := sc_redacted_reasoning_content st;
                 cm_tool_calls := sc_tool_calls st |} |} ];
     ccr_created := now;
     ccr_model := msg_model response;
     ccr_usage :=
       {| prompt_tokens := usage_input_tokens response;
          completion_tokens := usage_output_tokens response;
          total_tokens := usage_input_tokens response + usage_output_tokens response |} |}.

(** [now] is the value that [get_utc_time()] returns during the call;
    [input_messages] is not read. *)
Definition convert_response_to_chat_completion
    {PydanticMessage : Type}
    (response : AnthropicMessage) (input_messages : list PydanticMessage)
    (now : datetime) : M ChatCompletionResponse :=
  let* finish_reason := lift (remap_finish_reason (str_of_stop_reason (msg_stop_reason response))) in
  let* st :=
    if (0 <? length (msg_content response))%nat
    then ret (fold_left scan_part (msg_content response) scan_init)
    else raise (RuntimeError "Unexpected empty content in response") in
  if negb (String.eqb (msg_role response) "assistant")
  then raise (AssertionError EmptyString)
  else
    let chat_completion_response := assemble response finish_reason st now in
    let* cfg := get_config in
    if truthy (put_inner_thoughts_in_kwargs cfg)
    then lift (unpack_all_inner_thoughts_from_kwargs chat_completion_response
                 INNER_THOUGHTS_KWARG)
    else ret chat_completion_response.

End Normalizer.

Arguments ccr_id {datetime} c.
Arguments ccr_choices {datetime} c.
Arguments ccr_created {datetime} c.
Arguments ccr_model {datetime} c.
Arguments ccr_usage {datetime} c.

(** ** The mapping table of the classifier, by class *)




(** ** Stand-ins for the imported helpers, for the examples *)

Module Sample.

(** Messages that are already provider dicts. *)
Definition to_anthropic_dict (m : amsg) (tag : string) (kw : bool) : result amsg := Ok m.

Definition add_inner_thoughts_to_functions
    (fs : list FunctionSchema) (key description : string) : result (list FunctionSchema) :=
  Ok fs.

Definition KWARG : string := "inner_thoughts".
Definition KWARG_DESCRIPTION : string := "Deep inner monologue private to you only.".

Definition build :=
  build_request_data amsg to_anthropic_dict add_inner_thoughts_to_functions
    KWARG KWARG_DESCRIPTION.

Definition config_reasoner : LLMConfig :=
  {| model := "claude-3-7-sonnet";
     max_tokens := Some 1024;
     temperature := (7 # 10)%Q;
     enable_reasoner := true;
     max_reasoning_tokens := Some 512;
     put_inner_thoughts_in_kwargs := Some false |}.

Definition client_reasoner : AnthropicClient :=
  {| use_tool_naming := true; llm_config := config_reasoner |}.

Definition config_plain : LLMConfig :=
  {| model := "claude-3-5-haiku";
     max_tokens := Some 1024;
     temperature := (7 # 10)%Q;
     enable_reasoner := false;
     max_reasoning_tokens := None;
     put_inner_thoughts_in_kwargs := Some false |}.

Definition client_plain : AnthropicClient :=
  {| use_tool_naming := true; llm_config := config_plain |}.

Definition system_message : amsg := AMsg "system" (JStr "You are a helpful agent.").
Definition user_hi : amsg := AMsg "user" (JStr "hi").
Definition user_result : amsg :=
  AMsg "user" (JArr [JObj [("type", JStr "tool_result"); ("content", JStr "done")]]).
Definition assistant_ok : amsg := AMsg "assistant" (JStr "ok").

Definition conversation : list amsg :=
  [system_message; user_hi; user_result; assistant_ok].

Definition tool_f : FunctionSchema :=
  {| fn_name := "f"; fn_description := Some "d"; fn_parameters := None |}.

Definition merged_user : amsg :=
  AMsg "user"
    (JArr [ text_block (JStr "hi");
            JObj [("type", JStr "tool_result"); ("content", JStr "done")] ]).

Definition reasoner_payload : request_data :=
  {| rd_model := "claude-3-7-sonnet";
     rd_max_tokens := 1024;
     rd_temperature := 1%Q;
     rd_thinking := Some {| thinking_type := "enabled"; budget_tokens := 512 |};
     rd_tools := None;
     rd_system := JStr "You are a helpful agent.";
     rd_messages := [merged_user; assistant_ok] |}.

Definition plain_payload : request_data :=
  {| rd_model := "claude-3-5-haiku";
     rd_max_tokens := 1024;
     rd_temperature := (7 # 10)%Q;
     rd_thinking := None;
     rd_tools := None;
     rd_system := JStr "You are a helpful agent.";
     rd_messages := [merged_user; assistant_ok; prefix_fill_message] |}.

Definition tool_use_response : AnthropicMessage :=
  {| msg_id := "msg_1";
     msg_role := "assistant";
     msg_content := [ToolUseBlock "t1" "f" (JObj [("a", JInt 1)])];
     msg_model := "claude-3-5-haiku";
     msg_stop_reason := Some "tool_use";
     usage_input_tokens := 10;
     usage_output_tokens := 5 |}.

Definition unpack (r : ChatCompletionResponse Z) (key : string)
  : result (ChatCompletionResponse Z) := Ok r.

End Sample.

(** ** Further vocabulary and stand-ins for the examples *)


(** The three values that [remap_finish_reason] can return. *)
Definition is_finish_reason (s : string) : bool :=
  String.eqb s "stop" || String.eqb s "length" || String.eqb s "function_call".

Module Fixture.

Definition client_without_tool_naming : AnthropicClient :=
  {| use_tool_naming := false; llm_config := Sample.config_plain |}.

Definition text_response : AnthropicMessage :=
  {| msg_id := "msg_2";
     msg_role := "assistant";
     msg_content := [TextBlock "<thinking>plan</thinking>"; TextBlock "hello"];
     msg_model := "claude-3-5-haiku";
     msg_stop_reason := Some "end_turn";
     usage_input_tokens := 12;
     usage_output_tokens := 3 |}.

Definition rate_limited : py_exception :=
  {| exc_class := Sdk RateLimitError;
     exc_str := "Error code: 429";
     exc_cause := None;
     exc_status_code := Some 429;
     exc_response := Some "<Response [429 Too Many Requests]>" |}.

Definition base_handler (e : py_exception) : string := exc_str e.

(** A translation that rejects every message. *)
Definition rejecting_to_anthropic_dict (m : amsg) (tag : string) (kw : bool) : result amsg :=
  Raise (HelperError (am_role m)).

(** Three dicts in a store, under the identities 0, 1 and 2. *)
Definition store : gmap nat amsg :=
  <[0%nat := Sample.user_hi]>
    (<[1%nat := Sample.user_result]> (<[2%nat := Sample.assistant_ok]> ∅)).

End Fixture.

(** * Properties *)

(** ** Finish reasons *)

(** C5: [remap_finish_reason] maps [end_turn] and [stop_sequence] to
    [stop], [max_tokens] to [length], [tool_use] to [function_call], and
    raises [ValueError] on every other string. *)
Theorem remap_finish_reason_table :
  remap_finish_reason "end_turn" = Ok "stop" /\
  remap_finish_reason "stop_sequence" = Ok "stop" /\
  remap_finish_reason "max_tokens" = Ok "length" /\
  remap_finish_reason "tool_use" = Ok "function_call" /\
  forall s : string,
    s <> "end_turn" -> s <> "stop_sequence" -> s <> "max_tokens" -> s <> "tool_use" ->
    remap_finish_reason s = Raise (ValueError ("Unexpected stop_reason: " ++ s)) /\
    is_ok (remap_finish_reason s) = false.
Proof.
  repeat split; try reflexivity.
  all: unfold remap_finish_reason.
  all: repeat match goal with
         | |- context [String.eqb ?a ?b] =>
             destruct (String.eqb_spec a b); [congruence |]
         end.
  all: reflexivity.
Qed.

Lemma remap_finish_reason_table_witness :
  remap_finish_reason "None" = Raise (ValueError "Unexpected stop_reason: None") /\
  is_ok (remap_finish_reason "None") = false.
Proof.
  apply (proj2 (proj2 (proj2 (proj2 remap_finish_reason_table))) "None");
    discriminate.
Defined.

(** ** Partial-tag stripping *)

Section ReplaceFacts.

Import Text.

Lemma occurs_app c a b : occurs c (a ++ b) = occurs c a || occurs c b.
Proof.
  induction a as [|x a IH]; simpl; [reflexivity |].
  destruct (Ascii.eqb c x); [reflexivity | exact IH].
Qed.

(** Deleting occurrences of [old] never brings in a character. *)
Lemma replace_go_keeps_absent old c s :
  occurs c s = false -> forall skip, occurs c (replace_go old EmptyString skip s) = false.
Proof.
  induction s as [|a s IH]; intros Hs skip; simpl in *; [reflexivity |].
  destruct (Ascii.eqb c a) eqn:Hca; [discriminate |].
  destruct skip as [|k]; [| apply IH; assumption].
  destruct (starts_with old (String a s)).
  - simpl. apply IH; assumption.
  - simpl. rewrite Hca. apply IH; assumption.
Qed.

Lemma interleave_empty s : interleave EmptyString s = s.
Proof. induction s as [|a s IH]; simpl; [reflexivity | now rewrite IH]. Qed.

Lemma replace_keeps_absent old c s :
  occurs c s = false -> occurs c (replace old EmptyString s) = false.
Proof.
  intros Hs. destruct old as [|o old]; simpl.
  - now rewrite interleave_empty.
  - now apply replace_go_keeps_absent.
Qed.

(** Replacing the one-character string [c] deletes every [c]. *)
Lemma replace_char_removes c s :
  occurs c (replace (String c EmptyString) EmptyString s) = false.
Proof.
  unfold replace. induction s as [|a s IH]; simpl; [reflexivity |].
  destruct (Ascii.eqb c a) eqn:Hca; simpl.
  - exact IH.
  - rewrite Hca. exact IH.
Qed.

End ReplaceFacts.

(** C10: whatever the text and the tag, the result of
    [strip_xml_tags_streaming] holds no [<] and no [>]; the first
    replacement deletes every [<], the last every [>], and no
    replacement brings in a character that the text did not have. *)
Theorem strip_xml_tags_streaming_no_angle_brackets (s tag : string) :
  Text.occurs "<" (strip_xml_tags_streaming s (Some tag)) = false /\
  Text.occurs ">" (strip_xml_tags_streaming s (Some tag)) = false /\
  Text.occurs "<" (Text.replace "<" EmptyString s) = false /\
  (forall c, Text.occurs c s = false ->
             Text.occurs c (strip_xml_tags_streaming s (Some tag)) = false).
Proof.
  unfold strip_xml_tags_streaming, parts_to_remove. cbn [fold_left].
  repeat split.
  - do 6 apply replace_keeps_absent. apply replace_char_removes.
  - apply replace_char_removes.
  - apply replace_char_removes.
  - intros c Hc. do 7 apply replace_keeps_absent. exact Hc.
Qed.

(** ** Tag stripping *)

Section StripFacts.

Import Text Re.















End StripFacts.




(** ** Merging consecutive user messages *)

Section MergeFacts.

Lemma merge_loop_acc cur rest acc :
  merge_loop cur rest acc = (acc ++ merge_loop cur rest [])%list.
Proof.
  revert cur acc. induction rest as [|n rest IH]; intros cur acc; cbn [merge_loop].
  - reflexivity.
  - destruct (is_user cur && is_user n).
    + apply IH.
    + rewrite (IH n (acc ++ [cur])%list), (IH n ([] ++ [cur])%list).
      now rewrite <- app_assoc.
Qed.

(** The loop, one input message at a time. *)
Lemma merge_loop_step cur n rest :
  merge_loop cur (n :: rest) [] =
  if is_user cur && is_user n
  then merge_loop (absorb cur [n]) rest []
  else cur :: merge_loop n rest [].
Proof.
  cbn [merge_loop]. destruct (is_user cur && is_user n); [reflexivity |].
  now rewrite merge_loop_acc.
Qed.

Lemma is_user_set_content m c : is_user (set_content m c) = is_user m.
Proof. reflexivity. Qed.

Lemma absorb_is_user cur us : is_user (absorb cur us) = is_user cur.
Proof.
  revert cur. induction us as [|n us IH]; intros cur; [reflexivity |].
  unfold absorb in *. cbn [fold_left]. now rewrite IH.
Qed.



Lemma merge_loop_head cur rest :
  exists h t, merge_loop cur rest [] = h :: t /\ is_user h = is_user cur.
Proof.
  revert cur. induction rest as [|n rest IH]; intros cur.
  - exists cur, []. split; reflexivity.
  - rewrite merge_loop_step. destruct (is_user cur && is_user n).
    + destruct (IH (absorb cur [n])) as (h & t & -> & Hh).
      exists h, t. split; [reflexivity |]. now rewrite Hh, absorb_is_user.
    + exists cur, (merge_loop n rest []). split; reflexivity.
Qed.





Lemma merge_loop_no_adjacent cur rest :
  adjacent_users (merge_loop cur rest []) = false.
Proof.
  revert cur. induction rest as [|n rest IH]; intros cur.
  - reflexivity.
  - rewrite merge_loop_step. destruct (is_user cur && is_user n) eqn:Hcn.
    + apply IH.
    + destruct (merge_loop_head n rest) as (h & t & Ht & Hh).
      pose proof (IH n) as Hn. rewrite Ht in *.
      change (adjacent_users (cur :: h :: t))
        with ((is_user cur && is_user h) || adjacent_users (h :: t)).
      now rewrite Hh, Hcn, Hn.
Qed.

Lemma merge_no_adjacent l :
  adjacent_users (merge_tool_results_into_user_messages l) = false.
Proof. destruct l; [reflexivity | apply merge_loop_no_adjacent]. Qed.

Lemma merge_loop_fixed cur rest :
  adjacent_users (cur :: rest) = false -> merge_loop cur rest [] = cur :: rest.
Proof.
  revert cur. induction rest as [|n rest IH]; intros cur H; [reflexivity |].
  change (adjacent_users (cur :: n :: rest))
    with ((is_user cur && is_user n) || adjacent_users (n :: rest)) in H.
  apply orb_false_elim in H as [Hcn Hrest].
  rewrite merge_loop_step, Hcn. f_equal. now apply IH.
Qed.

Lemma merge_fixed l :
  adjacent_users l = false -> merge_tool_results_into_user_messages l = l.
Proof. destruct l; [reflexivity | apply merge_loop_fixed]. Qed.


End MergeFacts.

(** ** The request builder *)

Section BuildFacts.

Variable PydanticMessage : Type.
Variable to_anthropic_dict : PydanticMessage -> string -> bool -> result amsg.
Variable add_inner_thoughts_to_functions :
  list FunctionSchema -> string -> string -> result (list FunctionSchema).
Variable KWARG KWARG_DESCRIPTION : string.

Abbreviation build :=
  (build_request_data PydanticMessage to_anthropic_dict
     add_inner_thoughts_to_functions KWARG KWARG_DESCRIPTION).
Abbreviation tools_ready :=
  (tools_with_kwarg add_inner_thoughts_to_functions KWARG KWARG_DESCRIPTION).
Abbreviation dicts := (translated PydanticMessage to_anthropic_dict).

Ltac step_monad :=
  unfold build_request_data, bind, get_self, get_config, raise, ret, lift,
    modify_self;
  cbv beta iota.

(** A configuration that fails the first checks: the call raises and
    [self] is as before. *)
Lemma build_rejected self messages tools tool_call force_tool_call :
  config_accepted self = false ->
  exists e, build messages tools tool_call force_tool_call self = (Raise e, self).
Proof.
  unfold config_accepted. intros H. step_monad.
  destruct (use_tool_naming self); cbn [negb andb] in *; [| eauto].
  destruct (max_tokens (llm_config self)) as [mt|]; [| eauto].
  destruct mt as [|mt|mt]; [eauto | |].
  all: cbn [Z.eqb negb andb] in H; unfold extended_thinking, raise, ret.
  all: destruct (enable_reasoner (llm_config self)); [| discriminate].
  all: destruct (max_reasoning_tokens (llm_config self)) as [b|]; [| eauto].
  all: destruct (b <? _); [| eauto].
  all: cbn [andb] in H.
  all: destruct (truthy (put_inner_thoughts_in_kwargs (llm_config self)));
    [eauto | discriminate].
Qed.

(** An accepted configuration: the call in closed form. *)
Lemma build_accepted self messages tools tool_call force_tool_call :
  config_accepted self = true ->
  exists mt,
    max_tokens (llm_config self) = Some mt /\ mt <> 0 /\
    build messages tools tool_call force_tool_call self =
    (match tools_ready tools force_tool_call (kwargs_mode self force_tool_call) with
     | Raise e => Raise e
     | Ok tools_for_request =>
         match dicts messages (kwargs_mode self force_tool_call) with
         | Raise e => Raise e
         | Ok msgs =>
             match arrange_messages msgs (prefill_applies self force_tool_call) with
             | Raise e => Raise e
             | Ok (system, final) =>
                 Ok (payload self mt tools_for_request system final)
             end
         end
     end,
     after_tool_selection self force_tool_call).
Proof.
  unfold config_accepted. intros H.
  destruct (use_tool_naming self) eqn:Hn; [| discriminate]. cbn [andb] in H.
  destruct (max_tokens (llm_config self)) as [mt|] eqn:Hmt; [| discriminate].
  exists mt. split; [reflexivity |].
  apply andb_prop in H as [Hz Hr].
  assert (Hmt0 : mt <> 0) by (intros ->; discriminate).
  split; [assumption |].
  assert (Hext : extended_thinking (llm_config self) mt self
                 = (Ok (fst (reasoning_of (llm_config self)),
                        snd (reasoning_of (llm_config self)),
                        negb (enable_reasoner (llm_config self))), self)).
  { unfold extended_thinking, reasoning_of, raise, ret.
    destruct (enable_reasoner (llm_config self)); [| reflexivity].
    destruct (max_reasoning_tokens (llm_config self)) as [b|]; [| discriminate].
    apply andb_prop in Hr as [Hb Hk]. rewrite Hb.
    destruct (truthy (put_inner_thoughts_in_kwargs (llm_config self)));
      [discriminate | reflexivity]. }
  step_monad. rewrite Hn. change (negb true) with false. cbv beta iota. rewrite Hmt.
  unfold tools_with_kwarg, translated, kwargs_mode,
    prefill_applies, kwargs_mode, after_tool_selection.
  destruct mt as [|mt'|mt']; [congruence | |].
  all: cbv beta iota; rewrite Hext; cbv beta iota.
  all: destruct force_tool_call as [name|]; cbv beta iota.
  all: match goal with
       | |- context [(0 <? length ?l)%nat && ?k] =>
           destruct ((0 <? length l)%nat && k); cbv beta iota
       end.
  all: try match goal with
         | |- context [add_inner_thoughts_to_functions ?l ?a ?b] =>
             destruct (add_inner_thoughts_to_functions l a b);
               cbv beta iota; [| reflexivity]
         end.
  all: match goal with
       | |- context [map_result ?f ?l] =>
           destruct (map_result f l); cbv beta iota; [| reflexivity]
       end.
  all: match goal with
       | |- context [arrange_messages ?l ?b] =>
           destruct (arrange_messages l b) as [[? ?]|]; reflexivity
       end.
Qed.

Lemma arrange_messages_ok msgs prefill system final :
  arrange_messages msgs prefill = Ok (system, final) ->
  exists first rest handed,
    msgs = first :: rest /\ am_role first = "system" /\
    system = am_content first /\
    ensure_first_user rest = Ok handed /\
    final = with_prefill prefill (merge_tool_results_into_user_messages handed).
Proof.
  unfold arrange_messages. destruct msgs as [|first rest]; [discriminate |].
  destruct (String.eqb_spec (am_role first) "system") as [Hsys|Hsys];
    cbn [negb]; [| discriminate].
  destruct (ensure_first_user rest) as [handed|] eqn:Hh; [| discriminate].
  intros [= <- <-]. exists first, rest, handed. repeat split; assumption.
Qed.



(** Everything that a returned payload tells about the call. *)
Lemma build_ok_inv self messages tools tool_call force_tool_call p self' :
  build messages tools tool_call force_tool_call self = (Ok p, self') ->
  config_accepted self = true /\
  self' = after_tool_selection self force_tool_call /\
  exists mt tools_for_request first rest handed,
    max_tokens (llm_config self) = Some mt /\ mt <> 0 /\
    tools_ready tools force_tool_call (kwargs_mode self force_tool_call)
    = Ok tools_for_request /\
    dicts messages (kwargs_mode self force_tool_call) = Ok (first :: rest) /\
    am_role first = "system" /\
    ensure_first_user rest = Ok handed /\
    p = payload self mt tools_for_request (am_content first)
          (with_prefill (prefill_applies self force_tool_call)
             (merge_tool_results_into_user_messages handed)).
Proof.
  intros Hb. destruct (config_accepted self) eqn:Hacc.
  2:{ destruct (build_rejected self messages tools tool_call force_tool_call Hacc)
        as [e He]. congruence. }
  split; [reflexivity |].
  destruct (build_accepted self messages tools tool_call force_tool_call Hacc)
    as (mt & Hmt & Hmt0 & Heq).
  rewrite Heq in Hb. clear Heq.
  destruct (tools_ready tools force_tool_call (kwargs_mode self force_tool_call))
    as [tfr|] eqn:Ht; [| discriminate].
  destruct (dicts messages (kwargs_mode self force_tool_call)) as [msgs|] eqn:Hd;
    [| discriminate].
  destruct (arrange_messages msgs (prefill_applies self force_tool_call))
    as [[system final]|] eqn:Ha; [| discriminate].
  injection Hb as <- <-. split; [reflexivity |].
  apply arrange_messages_ok in Ha as (first & rest & handed & -> & Hs & -> & Hh & ->).
  exists mt, tfr, first, rest, handed. repeat split; assumption.
Qed.




(** C4: with the reasoner enabled, a returned payload means that the
    budget is set and below [max_tokens] and that inner thoughts were
    not in the tool arguments; its temperature is 1, its [thinking]
    entry carries the budget, and its message list is the merged list
    with nothing appended.  A missing or too large budget, and inner
    thoughts in the tool arguments, each raise [AssertionError]; a
    configuration that meets both conditions gets through the
    checks. *)
Theorem build_with_reasoner self messages tools tool_call force_tool_call :
  enable_reasoner (llm_config self) = true ->
  (forall p self',
      build messages tools tool_call force_tool_call self = (Ok p, self') ->
      exists mt budget first rest handed,
        max_tokens (llm_config self) = Some mt /\
        max_reasoning_tokens (llm_config self) = Some budget /\
        budget < mt /\
        truthy (put_inner_thoughts_in_kwargs (llm_config self)) = false /\
        rd_temperature p = 1%Q /\
        rd_thinking p = Some {| thinking_type := "enabled"; budget_tokens := budget |} /\
        dicts messages (kwargs_mode self force_tool_call) = Ok (first :: rest) /\
        ensure_first_user rest = Ok handed /\
        rd_messages p = merge_tool_results_into_user_messages handed) /\
  (forall mt,
      use_tool_naming self = true ->
      max_tokens (llm_config self) = Some mt -> mt <> 0 ->
      match max_reasoning_tokens (llm_config self) with
      | Some budget => mt <= budget
      | None => True
      end ->
      build messages tools tool_call force_tool_call self
      = (Raise (AssertionError "max tokens must be greater than thinking budget"), self)) /\
  (forall mt budget,
      use_tool_naming self = true ->
      max_tokens (llm_config self) = Some mt -> mt <> 0 ->
      max_reasoning_tokens (llm_config self) = Some budget -> budget < mt ->
      truthy (put_inner_thoughts_in_kwargs (llm_config self)) = true ->
      build messages tools tool_call force_tool_call self
      = (Raise (AssertionError
                  "extended thinking not compatible with put_inner_thoughts_in_kwargs"),
         self)) /\
  (forall mt budget,
      use_tool_naming self = true ->
      max_tokens (llm_config self) = Some mt -> mt <> 0 ->
      max_reasoning_tokens (llm_config self) = Some budget -> budget < mt ->
      truthy (put_inner_thoughts_in_kwargs (llm_config self)) = false ->
      config_accepted self = true).
Proof.
  intros Hre. repeat split.
  - intros p self' Hb.
    apply build_ok_inv in Hb
      as (Hacc & _ & mt & tfr & first & rest & handed & Hmt & _ & _ & Hd & _ & Hh & ->).
    unfold config_accepted in Hacc. rewrite Hmt, Hre in Hacc.
    destruct (max_reasoning_tokens (llm_config self)) as [budget|] eqn:Hbud.
    2:{ now rewrite !andb_false_r in Hacc. }
    apply andb_prop in Hacc as [_ Hacc]. apply andb_prop in Hacc as [_ Hacc].
    apply andb_prop in Hacc as [Hlt Hkw].
    exists mt, budget, first, rest.
    exists handed.
    unfold payload, reasoning_of, prefill_applies, with_prefill.
    rewrite Hre, Hbud. cbn [negb andb fst snd rd_temperature rd_thinking rd_messages].
    repeat split; try assumption.
    + now apply Z.ltb_lt.
    + now destruct (truthy _).
  - intros mt Hn Hmt Hmt0 Hbud.
    unfold build_request_data, bind, get_self, get_config, raise, ret, lift, modify_self.
    cbv beta iota. rewrite Hn. change (negb true) with false. cbv beta iota.
    rewrite Hmt. unfold extended_thinking, raise. rewrite Hre.
    destruct mt as [|mt'|mt']; [congruence | |].
    all: destruct (max_reasoning_tokens (llm_config self)) as [budget|]; [| reflexivity].
    all: destruct (Z.ltb_spec budget (Z.pos mt')) as [Hlt|Hge];
      destruct (Z.ltb_spec budget (Z.neg mt')) as [Hlt'|Hge']; try lia; reflexivity.
  - intros mt budget Hn Hmt Hmt0 Hbud Hlt Hkw.
    unfold build_request_data, bind, get_self, get_config, raise, ret, lift, modify_self.
    cbv beta iota. rewrite Hn. change (negb true) with false. cbv beta iota.
    rewrite Hmt. unfold extended_thinking, raise. rewrite Hre, Hbud, Hkw.
    apply Z.ltb_lt in Hlt. rewrite Hlt.
    destruct mt as [|mt'|mt']; [congruence | reflexivity | reflexivity].
  - intros mt budget Hn Hmt Hmt0 Hbud Hlt Hkw.
    unfold config_accepted. rewrite Hn, Hmt, Hre, Hbud, Hkw.
    apply Z.ltb_lt in Hlt. rewrite Hlt.
    destruct (Z.eqb_spec mt 0); [contradiction | reflexivity].
Qed.


End BuildFacts.

(** ** The merge over shared dicts *)

Section HeapFacts.

Implicit Types (st : gmap nat amsg) (refs rest merged : list nat).

Lemma heap_merge_loop_acc st cur rest merged :
  Heap.merge_loop st cur rest merged
  = (fst (Heap.merge_loop st cur rest []),
     (merged ++ snd (Heap.merge_loop st cur rest []))%list).
Proof.
  revert st cur merged.
  induction rest as [|n rest IH]; intros st cur merged; cbn [Heap.merge_loop].
  - reflexivity.
  - destruct (is_user (Heap.deref st cur) && is_user (Heap.deref st n)).
    + apply IH.
    + rewrite (IH st n (merged ++ [cur])%list), (IH st n ([] ++ [cur])%list).
      cbn [fst snd]. now rewrite <- app_assoc.
Qed.

Lemma deref_insert_is_user st r c x :
  is_user (Heap.deref (<[r := set_content (Heap.deref st r) c]> st) x) = is_user (Heap.deref st x).
Proof.
  unfold Heap.deref. destruct (decide (r = x)) as [->|Hne].
  - now rewrite lookup_total_insert_eq.
  - now rewrite lookup_total_insert_ne.
Qed.

(** The loop changes contents only: every dict keeps its role, the
    output starts with [current_message], and no two neighbours of
    the output are both user messages. *)
Lemma heap_merge_loop_shape st cur rest :
  (forall x, is_user (Heap.deref (fst (Heap.merge_loop st cur rest [])) x)
             = is_user (Heap.deref st x)) /\
  (exists t, snd (Heap.merge_loop st cur rest []) = cur :: t) /\
  adjacent_users (Heap.view (fst (Heap.merge_loop st cur rest []))
                       (snd (Heap.merge_loop st cur rest []))) = false.
Proof.
  revert st cur. induction rest as [|n rest IH]; intros st cur.
  - cbn. repeat split. now exists [].
  - cbn [Heap.merge_loop].
    destruct (is_user (Heap.deref st cur) && is_user (Heap.deref st n)) eqn:Hcn.
    + destruct (IH (<[cur := set_content (Heap.deref st cur)
                               (JArr (content_blocks (am_content (Heap.deref st cur)) ++
                                      content_blocks (am_content (Heap.deref st n))))]> st) cur)
        as (Hroles & Hhead & Hadj).
      repeat split; try assumption.
      intros x. now rewrite Hroles, deref_insert_is_user.
    + rewrite heap_merge_loop_acc. cbn [fst snd app].
      destruct (IH st n) as (Hroles & [t Ht] & Hadj).
      repeat split; [assumption | now eexists |].
      rewrite Ht in *. unfold Heap.view in *. cbn [map] in *.
      change (adjacent_users (?a :: ?b :: ?l))
        with ((is_user a && is_user b) || adjacent_users (b :: l)).
      now rewrite !Hroles, Hcn, Hadj.
Qed.

Lemma heap_merge_loop_fixed st cur rest :
  adjacent_users (Heap.view st (cur :: rest)) = false ->
  Heap.merge_loop st cur rest [] = (st, cur :: rest).
Proof.
  revert cur. induction rest as [|n rest IH]; intros cur H; [reflexivity |].
  unfold Heap.view in H. cbn [map] in H.
  change (adjacent_users (?a :: ?b :: ?l))
    with ((is_user a && is_user b) || adjacent_users (b :: l)) in H.
  apply orb_false_elim in H as [Hcn Hrest].
  cbn [Heap.merge_loop]. rewrite Hcn, heap_merge_loop_acc, (IH n Hrest).
  reflexivity.
Qed.

Lemma heap_merge_idempotent st refs :
  Heap.merge_tool_results_into_user_messages
    (fst (Heap.merge_tool_results_into_user_messages st refs))
    (snd (Heap.merge_tool_results_into_user_messages st refs))
  = Heap.merge_tool_results_into_user_messages st refs.
Proof.
  destruct refs as [|cur rest]; [reflexivity |].
  cbn [Heap.merge_tool_results_into_user_messages].
  destruct (heap_merge_loop_shape st cur rest) as (_ & [t Ht] & Hadj).
  destruct (Heap.merge_loop st cur rest []) as [st' out] eqn:Hm.
  cbn [fst snd] in *. subst out.
  cbn [Heap.merge_tool_results_into_user_messages].
  now apply heap_merge_loop_fixed.
Qed.

(** Dicts outside the list are not written. *)
Lemma heap_merge_loop_frame st cur rest x :
  x <> cur -> x ∉ rest ->
  Heap.deref (fst (Heap.merge_loop st cur rest [])) x = Heap.deref st x.
Proof.
  revert st cur. induction rest as [|n rest IH]; intros st cur Hx Hrest; [reflexivity |].
  apply not_elem_of_cons in Hrest as [Hn Hrest].
  cbn [Heap.merge_loop].
  destruct (is_user (Heap.deref st cur) && is_user (Heap.deref st n)).
  - rewrite IH by assumption. unfold Heap.deref. now rewrite lookup_total_insert_ne.
  - rewrite heap_merge_loop_acc. cbn [fst]. now apply IH.
Qed.

(** When the list holds each dict once, as the dicts that
    [build_request_data] makes, a reader of the result sees the merge
    of what a reader of the input saw. *)
Lemma heap_merge_loop_view st cur rest :
  NoDup (cur :: rest) ->
  Heap.view (fst (Heap.merge_loop st cur rest [])) (snd (Heap.merge_loop st cur rest []))
  = merge_loop (Heap.deref st cur) (Heap.view st rest) [].
Proof.
  revert st cur. induction rest as [|n rest IH]; intros st cur Hnd; [reflexivity |].
  apply NoDup_cons in Hnd as [Hcur Hnd].
  apply not_elem_of_cons in Hcur as [Hcn Hcr].
  pose proof Hnd as Hnd'. apply NoDup_cons in Hnd' as [Hnr Hrest].
  unfold Heap.view at 2. cbn [map]. fold (Heap.view st rest).
  rewrite merge_loop_step. cbn [Heap.merge_loop].
  destruct (is_user (Heap.deref st cur) && is_user (Heap.deref st n)).
  - rewrite IH by (apply NoDup_cons; split; assumption).
    f_equal.
    + unfold Heap.deref. now rewrite lookup_total_insert_eq.
    + unfold Heap.view. apply map_ext_in. intros x Hx%list_elem_of_In.
      unfold Heap.deref. rewrite lookup_total_insert_ne; [reflexivity |].
      intros ->. contradiction.
  - rewrite heap_merge_loop_acc. cbn [fst snd app].
    unfold Heap.view at 1. cbn [map]. fold (Heap.view (fst (Heap.merge_loop st n rest [])) 
                                         (snd (Heap.merge_loop st n rest []))).
    rewrite IH by assumption. f_equal.
    apply heap_merge_loop_frame; [congruence | assumption].
Qed.

Lemma heap_merge_view st refs :
  NoDup refs ->
  Heap.view (fst (Heap.merge_tool_results_into_user_messages st refs))
       (snd (Heap.merge_tool_results_into_user_messages st refs))
  = merge_tool_results_into_user_messages (Heap.view st refs).
Proof.
  destruct refs as [|cur rest]; [reflexivity |]. apply heap_merge_loop_view.
Qed.

End HeapFacts.

(** C9: merging twice gives what merging once gives, because the result
    of a merge has no two neighbours of role [user] and the merge
    returns such a list as it is; the same holds when the dicts are
    shared objects that the merge updates in place. *)
Theorem merge_idempotent (l : list amsg) :
  merge_tool_results_into_user_messages (merge_tool_results_into_user_messages l)
  = merge_tool_results_into_user_messages l /\
  adjacent_users (merge_tool_results_into_user_messages l) = false /\
  (adjacent_users l = false -> merge_tool_results_into_user_messages l = l) /\
  forall (st : gmap nat amsg) (refs : list nat),
    Heap.merge_tool_results_into_user_messages
      (fst (Heap.merge_tool_results_into_user_messages st refs))
      (snd (Heap.merge_tool_results_into_user_messages st refs))
    = Heap.merge_tool_results_into_user_messages st refs.
Proof.
  repeat split.
  - apply merge_fixed, merge_no_adjacent.
  - apply merge_no_adjacent.
  - apply merge_fixed.
  - apply heap_merge_idempotent.
Qed.

(** ** The error classifier *)

Section ClassifierFacts.

Variable BaseError : Type.
Variable base_handle_llm_error : py_exception -> BaseError.


End ClassifierFacts.

(** ** The response normaliser *)

Section NormalizerFacts.

Variable datetime : Type.
Variable unpack_all_inner_thoughts_from_kwargs :
  ChatCompletionResponse datetime -> string -> result (ChatCompletionResponse datetime).
Variable KWARG : string.



End NormalizerFacts.

(** ** Examples on a sample conversation *)




Lemma build_with_reasoner_witness :
  exists mt budget first rest handed,
    max_tokens (llm_config Sample.client_reasoner) = Some mt /\
    max_reasoning_tokens (llm_config Sample.client_reasoner) = Some budget /\
    budget < mt /\
    truthy (put_inner_thoughts_in_kwargs (llm_config Sample.client_reasoner)) = false /\
    rd_temperature Sample.reasoner_payload = 1%Q /\
    rd_thinking Sample.reasoner_payload
    = Some {| thinking_type := "enabled"; budget_tokens := budget |} /\
    translated amsg Sample.to_anthropic_dict Sample.conversation
      (kwargs_mode Sample.client_reasoner None) = Ok (first :: rest) /\
    ensure_first_user rest = Ok handed /\
    rd_messages Sample.reasoner_payload = merge_tool_results_into_user_messages handed.
Proof.
  apply (proj1 (build_with_reasoner amsg Sample.to_anthropic_dict
                  Sample.add_inner_thoughts_to_functions Sample.KWARG
                  Sample.KWARG_DESCRIPTION Sample.client_reasoner
                  Sample.conversation [] None None eq_refl)
           Sample.reasoner_payload Sample.client_reasoner).
  reflexivity.
Defined.


Lemma merge_idempotent_witness :
  merge_tool_results_into_user_messages [Sample.user_hi; Sample.assistant_ok]
  = [Sample.user_hi; Sample.assistant_ok].
Proof.
  apply (proj1 (proj2 (proj2 (merge_idempotent [Sample.user_hi; Sample.assistant_ok])))).
  reflexivity.
Defined.

(** The plain configuration primes the reply: the payload ends with
    the assistant message that opens the thinking tag. *)
Example build_plain_payload :
  Sample.build Sample.conversation [] None None Sample.client_plain
  = (Ok Sample.plain_payload, Sample.client_plain).
Proof. reflexivity. Qed.

(** * Further properties of the module *)

(** ** The merge: what it keeps *)

Section MergeKeeps.

Lemma merge_loop_blocks cur rest :
  run_blocks (merge_loop cur rest []) = run_blocks (cur :: rest).
Proof.
  revert cur. induction rest as [|n rest IH]; intros cur; [reflexivity |].
  rewrite merge_loop_step. destruct (is_user cur && is_user n).
  - rewrite IH. unfold run_blocks. cbn [absorb fold_left set_content am_content map concat
      content_blocks]. now rewrite <- app_assoc.
  - unfold run_blocks in *. cbn [map concat]. f_equal. apply IH.
Qed.

Lemma merge_loop_non_users cur rest :
  List.filter (fun m => negb (is_user m)) (merge_loop cur rest [])
  = List.filter (fun m => negb (is_user m)) (cur :: rest).
Proof.
  revert cur. induction rest as [|n rest IH]; intros cur; [reflexivity |].
  rewrite merge_loop_step. destruct (is_user cur && is_user n) eqn:Hcn.
  - apply andb_prop in Hcn as [Hc Hn]. rewrite IH.
    cbn [List.filter]. now rewrite absorb_is_user, Hc, Hn.
  - cbn [List.filter]. rewrite (IH n). cbn [List.filter]. reflexivity.
Qed.

Lemma merge_loop_length cur rest :
  (1 <= length (merge_loop cur rest []) <= S (length rest))%nat /\
  (adjacent_users (cur :: rest) = true ->
   (length (merge_loop cur rest []) < S (length rest))%nat).
Proof.
  revert cur. induction rest as [|n rest IH]; intros cur.
  - cbn. split; [lia | discriminate].
  - rewrite merge_loop_step.
    change (adjacent_users (cur :: n :: rest))
      with ((is_user cur && is_user n) || adjacent_users (n :: rest)).
    destruct (is_user cur && is_user n).
    + destruct (IH (absorb cur [n])) as [Hb _]. cbn [length]. split; [lia |]. intros _. lia.
    + destruct (IH n) as [Hb Hs]. cbn [length orb]. split; [lia |].
      intros H. apply Hs in H. lia.
Qed.

Lemma merge_preserves_blocks_aux (l : list amsg) :
  run_blocks (merge_tool_results_into_user_messages l) = run_blocks l.
Proof. destruct l as [|cur rest]; [reflexivity | apply merge_loop_blocks]. Qed.


(** X2: messages of a role other than [user] go through the merge
    unchanged and in their order. *)
Theorem merge_keeps_other_messages (l : list amsg) :
  List.filter (fun m => negb (is_user m)) (merge_tool_results_into_user_messages l)
  = List.filter (fun m => negb (is_user m)) l.
Proof. destruct l as [|cur rest]; [reflexivity | apply merge_loop_non_users]. Qed.

(** X3: the merged list is never longer than the input, it is shorter
    as soon as two neighbours of the input are user messages, and it is
    empty only for an empty input. *)
Theorem merge_length (l : list amsg) :
  (length (merge_tool_results_into_user_messages l) <= length l)%nat /\
  (adjacent_users l = true ->
   (length (merge_tool_results_into_user_messages l) < length l)%nat) /\
  (merge_tool_results_into_user_messages l = [] -> l = []).
Proof.
  destruct l as [|cur rest].
  - split; [reflexivity |]. split; [discriminate | reflexivity].
  - cbn [merge_tool_results_into_user_messages length].
    destruct (merge_loop_length cur rest) as [Hb Hs].
    split; [lia |]. split; [exact Hs |].
    intros H. rewrite H in Hb. cbn in Hb. lia.
Qed.

End MergeKeeps.

Lemma merge_length_witness :
  (length (merge_tool_results_into_user_messages
             [Sample.user_hi; Sample.user_result; Sample.assistant_ok])
   < length [Sample.user_hi; Sample.user_result; Sample.assistant_ok])%nat.
Proof.
  apply (proj1 (proj2 (merge_length [Sample.user_hi; Sample.user_result; Sample.assistant_ok]))).
  reflexivity.
Defined.

(** ** The merge over shared dicts: what a caller sees *)

Section HeapSees.

Implicit Types (st : gmap nat amsg) (refs rest : list nat).

Lemma heap_merge_loop_roles st cur rest x :
  am_role (Heap.deref (fst (Heap.merge_loop st cur rest [])) x) = am_role (Heap.deref st x).
Proof.
  revert st cur. induction rest as [|n rest IH]; intros st cur; [reflexivity |].
  cbn [Heap.merge_loop].
  destruct (is_user (Heap.deref st cur) && is_user (Heap.deref st n)).
  - rewrite IH. unfold Heap.deref. destruct (decide (cur = x)) as [->|Hne].
    + now rewrite lookup_total_insert_eq.
    + now rewrite lookup_total_insert_ne.
  - rewrite heap_merge_loop_acc. cbn [fst]. apply IH.
Qed.

(** X4: when the list names each dict once, a reader of the list that
    the in-place merge returns sees the merge of what a reader of the
    input list saw before the call. *)
Theorem heap_merge_agrees_with_value_merge st refs :
  NoDup refs ->
  Heap.view (fst (Heap.merge_tool_results_into_user_messages st refs))
            (snd (Heap.merge_tool_results_into_user_messages st refs))
  = merge_tool_results_into_user_messages (Heap.view st refs).
Proof.
  destruct refs as [|cur rest]; [reflexivity |]. apply heap_merge_loop_view.
Qed.

(** X5: the in-place merge writes contents only: every dict keeps its
    role, and a dict that the list does not name is left as it was. *)
Theorem heap_merge_writes_contents_only st refs (x : nat) :
  am_role (Heap.deref (fst (Heap.merge_tool_results_into_user_messages st refs)) x)
  = am_role (Heap.deref st x) /\
  (x ∉ refs ->
   Heap.deref (fst (Heap.merge_tool_results_into_user_messages st refs)) x
   = Heap.deref st x).
Proof.
  destruct refs as [|cur rest]; [split; reflexivity |].
  cbn [Heap.merge_tool_results_into_user_messages]. split.
  - apply heap_merge_loop_roles.
  - intros Hx. apply not_elem_of_cons in Hx as [Hc Hr].
    now apply heap_merge_loop_frame.
Qed.


End HeapSees.

Lemma heap_merge_agrees_with_value_merge_witness :
  Heap.view (fst (Heap.merge_tool_results_into_user_messages Fixture.store [0; 1; 2]%nat))
            (snd (Heap.merge_tool_results_into_user_messages Fixture.store [0; 1; 2]%nat))
  = merge_tool_results_into_user_messages (Heap.view Fixture.store [0; 1; 2]%nat).
Proof.
  apply (heap_merge_agrees_with_value_merge Fixture.store [0; 1; 2]%nat).
  apply (bool_decide_unpack _). vm_compute. exact I.
Defined.

Lemma heap_merge_writes_contents_only_witness :
  Heap.deref (fst (Heap.merge_tool_results_into_user_messages Fixture.store [0; 1]%nat)) 2%nat
  = Heap.deref Fixture.store 2%nat.
Proof.
  apply (proj2 (heap_merge_writes_contents_only Fixture.store [0; 1]%nat 2%nat)).
  apply (bool_decide_unpack _). vm_compute. exact I.
Defined.


(** ** Tool conversion *)

(** X7: [convert_tools_to_anthropic_format] keeps the number and the
    order of the tools; each converted tool has the name and the
    description of its source, and an input schema that is never empty:
    the parameters of the source when it has some, the empty object
    schema when the parameters are missing or an empty dict. *)
Theorem convert_tools_shape (tools : list FunctionSchema) :
  length (convert_tools_to_anthropic_format tools) = length tools /\
  map at_name (convert_tools_to_anthropic_format tools) = map fn_name tools /\
  map at_description (convert_tools_to_anthropic_format tools) = map fn_description tools /\
  (forall t, In t (convert_tools_to_anthropic_format tools) -> at_input_schema t <> []) /\
  (forall (i : nat) f,
      nth_error tools i = Some f ->
      exists t,
        nth_error (convert_tools_to_anthropic_format tools) i = Some t /\
        at_input_schema t
        = match fn_parameters f with
          | Some (p :: ps) => p :: ps
          | _ => default_input_schema
          end).
Proof.
  unfold convert_tools_to_anthropic_format. repeat split.
  - apply length_map.
  - rewrite map_map. reflexivity.
  - rewrite map_map. reflexivity.
  - intros t Ht. apply in_map_iff in Ht as (f & <- & _).
    unfold convert_tool. cbn [at_input_schema].
    destruct (fn_parameters f) as [[|p ps]|]; discriminate.
  - intros i f Hi. exists (convert_tool f). split.
    + now apply map_nth_error.
    + unfold convert_tool. cbn [at_input_schema].
      destruct (fn_parameters f) as [[|p ps]|]; reflexivity.
Qed.

Lemma convert_tools_shape_witness :
  exists t,
    nth_error (convert_tools_to_anthropic_format [Sample.tool_f]) 0 = Some t /\
    at_input_schema t
    = match fn_parameters Sample.tool_f with
      | Some (p :: ps) => p :: ps
      | _ => default_input_schema
      end.
Proof.
  apply (proj2 (proj2 (proj2 (proj2 (convert_tools_shape [Sample.tool_f]))))
           0%nat Sample.tool_f).
  reflexivity.
Defined.

(** ** The request builder: errors, edges and the parts of the payload *)

Section BuildMore.

Variable PydanticMessage : Type.
Variable to_anthropic_dict : PydanticMessage -> string -> bool -> result amsg.
Variable add_inner_thoughts_to_functions :
  list FunctionSchema -> string -> string -> result (list FunctionSchema).
Variable KWARG KWARG_DESCRIPTION : string.

Abbreviation build :=
  (build_request_data PydanticMessage to_anthropic_dict
     add_inner_thoughts_to_functions KWARG KWARG_DESCRIPTION).
Abbreviation tools_ready :=
  (tools_with_kwarg add_inner_thoughts_to_functions KWARG KWARG_DESCRIPTION).
Abbreviation dicts := (translated PydanticMessage to_anthropic_dict).

Ltac open_build :=
  unfold build_request_data, bind, get_self, get_config, raise, ret, lift, modify_self;
  cbv beta iota.

(** X8: a client without tool naming gets [NotImplementedError]
    whatever else is passed, and a configuration whose [max_tokens] is
    missing or zero gets [ValueError]; both leave the client as it
    was. *)
Theorem build_configuration_errors self messages tools tool_call force_tool_call :
  (use_tool_naming self = false ->
   build messages tools tool_call force_tool_call self
   = (Raise (NotImplementedError "Only tool calling supported on Anthropic API requests"),
      self)) /\
  (use_tool_naming self = true ->
   max_tokens (llm_config self) = None \/ max_tokens (llm_config self) = Some 0 ->
   build messages tools tool_call force_tool_call self
   = (Raise (ValueError "Max  tokens must be set for anthropic"), self)).
Proof.
  split.
  - intros Hn. open_build. now rewrite Hn.
  - intros Hn [Hm|Hm]; open_build; rewrite Hn; change (negb true) with false;
      cbv beta iota; now rewrite Hm.
Qed.

Lemma ensure_first_user_ok rest handed :
  ensure_first_user rest = Ok handed ->
  exists second rest',
    rest = second :: rest' /\
    ((is_user second = false /\ handed = dummy_first_user_message :: rest) \/
     (is_user second = true /\ handed = rest)).
Proof.
  unfold ensure_first_user. destruct rest as [|second rest']; [discriminate |].
  unfold is_user. destruct (String.eqb (am_role second) "user") eqn:Hu; cbn [negb];
    intros [= <-]; exists second, rest'; (split; [reflexivity |]).
  - right. split; [exact Hu | reflexivity].
  - left. split; [exact Hu | reflexivity].
Qed.

Lemma with_prefill_head prefill h t :
  exists t', with_prefill prefill (h :: t) = h :: t'.
Proof. unfold with_prefill. destruct prefill; cbn [app]; eauto. Qed.

(** X9: with a configuration that passes the checks and tools that are
    ready, an empty message list and a list that holds the system
    message only both raise [IndexError]; a forced tool name has by
    then been written to the configuration. *)
Theorem build_needs_a_message_after_system self tools tool_call force_tool_call :
  config_accepted self = true ->
  is_ok (tools_ready tools force_tool_call (kwargs_mode self force_tool_call)) = true ->
  build [] tools tool_call force_tool_call self
  = (Raise index_error, after_tool_selection self force_tool_call) /\
  forall m first,
    to_anthropic_dict m inner_thoughts_xml_tag (kwargs_mode self force_tool_call) = Ok first ->
    am_role first = "system" ->
    build [m] tools tool_call force_tool_call self
    = (Raise index_error, after_tool_selection self force_tool_call).
Proof.
  intros Hacc Ht. split.
  - destruct (build_accepted PydanticMessage to_anthropic_dict
                add_inner_thoughts_to_functions KWARG KWARG_DESCRIPTION
                self [] tools tool_call force_tool_call Hacc) as (mt & _ & _ & ->).
    destruct (tools_ready tools force_tool_call (kwargs_mode self force_tool_call));
      [reflexivity | discriminate].
  - intros m first Hm Hs.
    destruct (build_accepted PydanticMessage to_anthropic_dict
                add_inner_thoughts_to_functions KWARG KWARG_DESCRIPTION
                self [m] tools tool_call force_tool_call Hacc) as (mt & _ & _ & ->).
    destruct (tools_ready tools force_tool_call (kwargs_mode self force_tool_call));
      [| discriminate].
    unfold translated. cbn [map_result]. rewrite Hm.
    unfold arrange_messages. rewrite Hs. reflexivity.
Qed.

(** X10: the message list of a returned payload is not empty and
    starts with a message of role [user]; when the message after the
    system message is not a user message, it starts with the placeholder
    user message, which is merged with nothing. *)
Theorem build_first_message_is_user self messages tools tool_call force_tool_call p self' :
  build messages tools tool_call force_tool_call self = (Ok p, self') ->
  (exists m ms, rd_messages p = m :: ms /\ am_role m = "user") /\
  (forall first second rest,
      dicts messages (kwargs_mode self force_tool_call) = Ok (first :: second :: rest) ->
      am_role second <> "user" ->
      exists ms, rd_messages p = dummy_first_user_message :: second :: ms).
Proof.
  intros Hb.
  apply (build_ok_inv PydanticMessage to_anthropic_dict add_inner_thoughts_to_functions
           KWARG KWARG_DESCRIPTION) in Hb
    as (_ & _ & mt & tfr & first & rest & handed & _ & _ & _ & Hd & _ & Hh & ->).
  cbn [payload rd_messages].
  apply ensure_first_user_ok in Hh as (second & rest' & -> & Hcase).
  split.
  - destruct Hcase as [[Hsec ->]|[Hsec ->]].
    + cbn [merge_tool_results_into_user_messages].
      rewrite merge_loop_step, Hsec, andb_false_r.
      destruct (with_prefill_head (prefill_applies self force_tool_call)
                  dummy_first_user_message (merge_loop second rest' [])) as [t' ->].
      eauto.
    + cbn [merge_tool_results_into_user_messages].
      destruct (merge_loop_head second rest') as (h & t & -> & Hh).
      destruct (with_prefill_head (prefill_applies self force_tool_call) h t) as [t' ->].
      exists h, t'. split; [reflexivity |].
      rewrite Hsec in Hh. unfold is_user in Hh. now apply String.eqb_eq.
  - intros first0 second0 rest0 Hd0 Hrole.
    rewrite Hd in Hd0. injection Hd0 as <- <- <-.
    destruct Hcase as [[Hsec ->]|[Hsec _]].
    + cbn [merge_tool_results_into_user_messages].
      rewrite merge_loop_step, Hsec, andb_false_r.
      assert (Hhd : exists t0, merge_loop second rest' [] = second :: t0).
      { destruct rest' as [|n r]; [now exists [] |].
        rewrite merge_loop_step, Hsec. cbn [andb]. eauto. }
      destruct Hhd as [t0 ->].
      destruct (with_prefill_head (prefill_applies self force_tool_call)
                  dummy_first_user_message (second :: t0)) as [t' Ht'].
      unfold with_prefill in *. destruct (prefill_applies self force_tool_call);
        cbn [app]; eauto.
    + unfold is_user in Hsec. apply String.eqb_eq in Hsec. contradiction.
Qed.

(** X11: a payload built without reasoner, without forced tool, with
    inner thoughts not in the tool arguments and for a model whose name
    does not contain [opus] ends with the assistant message that opens
    the thinking tag; in every other case the message list is the
    merged list and nothing is appended. *)
Theorem build_priming_message self messages tools tool_call force_tool_call p self' :
  build messages tools tool_call force_tool_call self = (Ok p, self') ->
  (enable_reasoner (llm_config self) = false ->
   force_tool_call = None ->
   truthy (put_inner_thoughts_in_kwargs (llm_config self)) = false ->
   Text.contains "opus" (model (llm_config self)) = false ->
   last (rd_messages p) = Some prefix_fill_message) /\
  (enable_reasoner (llm_config self) = true \/ force_tool_call <> None \/
   truthy (put_inner_thoughts_in_kwargs (llm_config self)) = true \/
   Text.contains "opus" (model (llm_config self)) = true ->
   exists first rest handed,
     dicts messages (kwargs_mode self force_tool_call) = Ok (first :: rest) /\
     ensure_first_user rest = Ok handed /\
     rd_messages p = merge_tool_results_into_user_messages handed).
Proof.
  intros Hb.
  apply (build_ok_inv PydanticMessage to_anthropic_dict add_inner_thoughts_to_functions
           KWARG KWARG_DESCRIPTION) in Hb
    as (_ & _ & mt & tfr & first & rest & handed & _ & _ & _ & Hd & _ & Hh & ->).
  cbn [payload rd_messages]. unfold prefill_applies, kwargs_mode, with_prefill. split.
  - intros Hre -> Hkw Hopus. cbn [after_tool_selection].
    rewrite Hre, Hkw, Hopus. cbn [negb andb]. apply last_snoc.
  - intros Hcase. exists first, rest, handed. split; [assumption |]. split; [assumption |].
    destruct Hcase as [Hre|[Hf|[Hkw|Hopus]]].
    + now rewrite Hre.
    + destruct force_tool_call as [name|]; [| contradiction].
      cbn [after_tool_selection force_inner_thoughts llm_config
             put_inner_thoughts_in_kwargs truthy negb].
      now rewrite andb_false_r.
    + destruct force_tool_call as [name|].
      * cbn [after_tool_selection force_inner_thoughts llm_config
               put_inner_thoughts_in_kwargs truthy negb].
        now rewrite andb_false_r.
      * cbn [after_tool_selection]. rewrite Hkw. cbn [negb]. now rewrite andb_false_r.
    + rewrite Hopus. cbn [negb]. now rewrite andb_false_r.
Qed.

Lemma filter_none_named (tools : list FunctionSchema) (name : string) :
  (forall f, In f tools -> fn_name f <> name) ->
  List.filter (fun f => String.eqb (fn_name f) name) tools = [].
Proof.
  induction tools as [|f tools IH]; intros H; [reflexivity |].
  cbn [List.filter].
  destruct (String.eqb_spec (fn_name f) name) as [Heq|Hne].
  - exfalso. apply (H f); [now left | exact Heq].
  - apply IH. intros g Hg. apply H. now right.
Qed.

(** X12: the payload has no [tools] entry when no tools are passed and
    when a tool name is forced that no tool bears; without a forced
    name and with inner thoughts not in the tool arguments, the entry
    is the conversion of all the tools passed, in their order. *)
Theorem build_tools_entry self messages tools tool_call force_tool_call p self' :
  build messages tools tool_call force_tool_call self = (Ok p, self') ->
  (tools = [] -> rd_tools p = None) /\
  (forall name,
      force_tool_call = Some name ->
      (forall f, In f tools -> fn_name f <> name) ->
      rd_tools p = None) /\
  (force_tool_call = None ->
   truthy (put_inner_thoughts_in_kwargs (llm_config self)) = false ->
   tools <> [] ->
   rd_tools p = Some (convert_tools_to_anthropic_format tools)).
Proof.
  intros Hb.
  apply (build_ok_inv PydanticMessage to_anthropic_dict add_inner_thoughts_to_functions
           KWARG KWARG_DESCRIPTION) in Hb
    as (_ & _ & mt & tfr & first & rest & handed & _ & _ & Ht & _ & _ & _ & ->).
  cbn [payload rd_tools]. unfold tools_with_kwarg in Ht.
  assert (Hempty : select_tools tools force_tool_call = [] -> tfr = []).
  { intros He. rewrite He in Ht. cbn in Ht. now injection Ht as <-. }
  split; [| split].
  - intros ->. rewrite Hempty; [reflexivity |].
    destruct force_tool_call; reflexivity.
  - intros name -> Hnone. rewrite Hempty; [reflexivity |].
    cbn [select_tools]. now apply filter_none_named.
  - intros -> Hkw Hne. unfold kwargs_mode in Ht. cbn [after_tool_selection select_tools] in Ht.
    rewrite Hkw, andb_false_r in Ht. injection Ht as <-.
    destruct tools; [contradiction | reflexivity].
Qed.

(** X13: a returned payload carries the model name and the
    [max_tokens] of the configuration, which is not zero; without the
    reasoner it carries the configured temperature and no [thinking]
    entry. *)
Theorem build_copies_configuration self messages tools tool_call force_tool_call p self' :
  build messages tools tool_call force_tool_call self = (Ok p, self') ->
  rd_model p = model (llm_config self) /\
  max_tokens (llm_config self) = Some (rd_max_tokens p) /\
  rd_max_tokens p <> 0 /\
  (enable_reasoner (llm_config self) = false ->
   rd_temperature p = temperature (llm_config self) /\ rd_thinking p = None).
Proof.
  intros Hb.
  apply (build_ok_inv PydanticMessage to_anthropic_dict add_inner_thoughts_to_functions
           KWARG KWARG_DESCRIPTION) in Hb
    as (_ & _ & mt & tfr & first & rest & handed & Hmt & Hmt0 & _ & _ & _ & _ & ->).
  cbn [payload rd_model rd_max_tokens rd_temperature rd_thinking].
  split; [reflexivity |]. split; [assumption |]. split; [assumption |].
  intros Hre. unfold reasoning_of. rewrite Hre. split; reflexivity.
Qed.

(** X14: once a call with a forced tool name has got through the
    checks of a configuration with the reasoner on, every later call on
    that client raises [AssertionError], whatever its arguments: the
    flag that the first call stored fails the reasoner's second
    assertion. *)
Theorem build_after_forced_tool_with_reasoner
    self messages tools tool_call name messages2 tools2 tool_call2 force_tool_call2 :
  config_accepted self = true ->
  enable_reasoner (llm_config self) = true ->
  build messages2 tools2 tool_call2 force_tool_call2
    (snd (build messages tools tool_call (Some name) self))
  = (Raise (AssertionError
              "extended thinking not compatible with put_inner_thoughts_in_kwargs"),
     force_inner_thoughts self).
Proof.
  intros Hacc Hre.
  destruct (build_accepted PydanticMessage to_anthropic_dict add_inner_thoughts_to_functions
              KWARG KWARG_DESCRIPTION self messages tools tool_call (Some name) Hacc)
    as (mt & Hmt & Hmt0 & ->).
  cbn [snd after_tool_selection].
  unfold config_accepted in Hacc. rewrite Hmt, Hre in Hacc.
  destruct (use_tool_naming self) eqn:Hn; [| discriminate]. cbn [andb] in Hacc.
  apply andb_prop in Hacc as [_ Hacc].
  destruct (max_reasoning_tokens (llm_config self)) as [budget|] eqn:Hbud; [| discriminate].
  apply andb_prop in Hacc as [Hlt _].
  assert (Hn' : use_tool_naming (force_inner_thoughts self) = true) by exact Hn.
  assert (Hmt' : max_tokens (llm_config (force_inner_thoughts self)) = Some mt)
    by exact Hmt.
  assert (Hre' : enable_reasoner (llm_config (force_inner_thoughts self)) = true)
    by exact Hre.
  assert (Hbud' : max_reasoning_tokens (llm_config (force_inner_thoughts self))
                  = Some budget) by exact Hbud.
  assert (Hkw' : truthy (put_inner_thoughts_in_kwargs
                           (llm_config (force_inner_thoughts self))) = true)
    by reflexivity.
  generalize dependent (force_inner_thoughts self). intros forced Hn' Hmt' Hre' Hbud' Hkw'.
  open_build. rewrite Hn'. change (negb true) with false. cbv beta iota. rewrite Hmt'.
  unfold extended_thinking, raise. rewrite Hre', Hbud', Hlt, Hkw'.
  destruct mt as [|mt'|mt']; [congruence | reflexivity | reflexivity].
Qed.

End BuildMore.

Lemma build_configuration_errors_witness :
  build_request_data amsg Sample.to_anthropic_dict Sample.add_inner_thoughts_to_functions
    Sample.KWARG Sample.KWARG_DESCRIPTION
    Sample.conversation [] None None Fixture.client_without_tool_naming
  = (Raise (NotImplementedError "Only tool calling supported on Anthropic API requests"),
     Fixture.client_without_tool_naming).
Proof.
  apply (proj1 (build_configuration_errors amsg Sample.to_anthropic_dict
                  Sample.add_inner_thoughts_to_functions Sample.KWARG
                  Sample.KWARG_DESCRIPTION Fixture.client_without_tool_naming
                  Sample.conversation [] None None)).
  reflexivity.
Defined.

Lemma build_needs_a_message_after_system_witness :
  build_request_data amsg Sample.to_anthropic_dict Sample.add_inner_thoughts_to_functions
    Sample.KWARG Sample.KWARG_DESCRIPTION [] [] None None Sample.client_plain
  = (Raise index_error, after_tool_selection Sample.client_plain None).
Proof.
  apply (proj1 (build_needs_a_message_after_system amsg Sample.to_anthropic_dict
                  Sample.add_inner_thoughts_to_functions Sample.KWARG
                  Sample.KWARG_DESCRIPTION Sample.client_plain [] None None
                  eq_refl eq_refl)).
Defined.

Lemma build_first_message_is_user_witness :
  exists m ms, rd_messages Sample.plain_payload = m :: ms /\ am_role m = "user".
Proof.
  apply (proj1 (build_first_message_is_user amsg Sample.to_anthropic_dict
                  Sample.add_inner_thoughts_to_functions Sample.KWARG
                  Sample.KWARG_DESCRIPTION Sample.client_plain Sample.conversation
                  [] None None Sample.plain_payload Sample.client_plain eq_refl)).
Defined.

Lemma build_priming_message_witness :
  last (rd_messages Sample.plain_payload) = Some prefix_fill_message.
Proof.
  apply (proj1 (build_priming_message amsg Sample.to_anthropic_dict
                  Sample.add_inner_thoughts_to_functions Sample.KWARG
                  Sample.KWARG_DESCRIPTION Sample.client_plain Sample.conversation
                  [] None None Sample.plain_payload Sample.client_plain eq_refl));
    reflexivity.
Defined.

Lemma build_tools_entry_witness : rd_tools Sample.plain_payload = None.
Proof.
  apply (proj1 (build_tools_entry amsg Sample.to_anthropic_dict
                  Sample.add_inner_thoughts_to_functions Sample.KWARG
                  Sample.KWARG_DESCRIPTION Sample.client_plain Sample.conversation
                  [] None None Sample.plain_payload Sample.client_plain eq_refl)).
  reflexivity.
Defined.

Lemma build_copies_configuration_witness :
  rd_model Sample.plain_payload = model (llm_config Sample.client_plain).
Proof.
  apply (proj1 (build_copies_configuration amsg Sample.to_anthropic_dict
                  Sample.add_inner_thoughts_to_functions Sample.KWARG
                  Sample.KWARG_DESCRIPTION Sample.client_plain Sample.conversation
                  [] None None Sample.plain_payload Sample.client_plain eq_refl)).
Defined.

Lemma build_after_forced_tool_with_reasoner_witness :
  build_request_data amsg Sample.to_anthropic_dict Sample.add_inner_thoughts_to_functions
    Sample.KWARG Sample.KWARG_DESCRIPTION Sample.conversation [] None None
    (snd (build_request_data amsg Sample.to_anthropic_dict
            Sample.add_inner_thoughts_to_functions Sample.KWARG Sample.KWARG_DESCRIPTION
            Sample.conversation [Sample.tool_f] None (Some "f") Sample.client_reasoner))
  = (Raise (AssertionError
              "extended thinking not compatible with put_inner_thoughts_in_kwargs"),
     force_inner_thoughts Sample.client_reasoner).
Proof.
  apply (build_after_forced_tool_with_reasoner amsg Sample.to_anthropic_dict
           Sample.add_inner_thoughts_to_functions Sample.KWARG Sample.KWARG_DESCRIPTION
           Sample.client_reasoner Sample.conversation [Sample.tool_f] None "f"
           Sample.conversation [] None None);
    reflexivity.
Defined.

(** ** The response normaliser: errors, shape and the last block of a kind *)

Section NormalizerMore.

Variable datetime : Type.
Variable unpack_all_inner_thoughts_from_kwargs :
  ChatCompletionResponse datetime -> string -> result (ChatCompletionResponse datetime).
Variable KWARG : string.
Variable PydanticMessage : Type.

Abbreviation convert :=
  (convert_response_to_chat_completion datetime unpack_all_inner_thoughts_from_kwargs
     KWARG (PydanticMessage := PydanticMessage)).

(** The call in closed form. *)
Lemma convert_closed_form response (input_messages : list PydanticMessage) now self :
  convert response input_messages now self
  = (match remap_finish_reason (str_of_stop_reason (msg_stop_reason response)) with
     | Raise e => Raise e
     | Ok finish_reason =>
         match msg_content response with
         | [] => Raise (RuntimeError "Unexpected empty content in response")
         | _ :: _ =>
             if String.eqb (msg_role response) "assistant"
             then
               if truthy (put_inner_thoughts_in_kwargs (llm_config self))
               then unpack_all_inner_thoughts_from_kwargs
                      (assemble datetime response finish_reason
                         (fold_left scan_part (msg_content response) scan_init) now)
                      KWARG
               else Ok (assemble datetime response finish_reason
                          (fold_left scan_part (msg_content response) scan_init) now)
             else Raise (AssertionError EmptyString)
         end
     end, self).
Proof.
  unfold convert_response_to_chat_completion, bind, lift, ret, raise, get_config.
  destruct (remap_finish_reason _) as [fr|e]; [| reflexivity].
  destruct (msg_content response) as [|b bs]; [reflexivity |].
  cbn [length Nat.ltb Nat.leb]. cbv beta iota.
  destruct (String.eqb (msg_role response) "assistant"); cbn [negb]; [| reflexivity].
  destruct (truthy _); reflexivity.
Qed.


Lemma remap_finish_reason_range s v :
  remap_finish_reason s = Ok v -> is_finish_reason v = true.
Proof.
  unfold remap_finish_reason.
  repeat match goal with
         | |- context [String.eqb ?a ?b] => destruct (String.eqb a b)
         end; intros [= <-]; reflexivity.
Qed.

(** X17: with inner thoughts not in the tool arguments, a response is
    returned exactly when the stop reason is a known one, the content is
    not empty and the role is [assistant]; it then has one choice, of
    index 0, whose finish reason is [stop], [length] or [function_call];
    it carries the id and the model of the provider response and the
    time of the call, and its total token count is the sum of the input
    and output counts; the client is left as it was. *)
Theorem convert_response_shape response (input_messages : list PydanticMessage) now self :
  truthy (put_inner_thoughts_in_kwargs (llm_config self)) = false ->
  (forall r self',
      convert response input_messages now self = (Ok r, self') ->
      self' = self /\
      exists finish_reason choice,
        remap_finish_reason (str_of_stop_reason (msg_stop_reason response))
        = Ok finish_reason /\
        msg_content response <> [] /\
        msg_role response = "assistant" /\
        ccr_choices r = [choice] /\
        ch_index choice = 0 /\
        ch_finish_reason choice = finish_reason /\
        is_finish_reason finish_reason = true /\
        cm_role (ch_message choice) = "assistant" /\
        ccr_id r = msg_id response /\
        ccr_model r = msg_model response /\
        ccr_created r = now /\
        prompt_tokens (ccr_usage r) = usage_input_tokens response /\
        completion_tokens (ccr_usage r) = usage_output_tokens response /\
        total_tokens (ccr_usage r)
        = usage_input_tokens response + usage_output_tokens response) /\
  (forall finish_reason,
      remap_finish_reason (str_of_stop_reason (msg_stop_reason response)) = Ok finish_reason ->
      msg_content response <> [] ->
      msg_role response = "assistant" ->
      is_ok (fst (convert response input_messages now self)) = true).
Proof.
  intros Hkw. rewrite convert_closed_form, Hkw. split.
  - intros r self'.
    destruct (remap_finish_reason _) as [fr|e] eqn:Hfr; [| discriminate].
    destruct (msg_content response) as [|b bs] eqn:Hc; [discriminate |].
    destruct (String.eqb_spec (msg_role response) "assistant") as [Hrole|Hrole];
      [| discriminate].
    intros [= <- <-]. split; [reflexivity |].
    eexists fr, _. cbn [assemble ccr_choices ccr_id ccr_model ccr_created ccr_usage
                          prompt_tokens completion_tokens total_tokens].
    repeat split; try reflexivity; try assumption; try discriminate.
    now apply remap_finish_reason_range in Hfr.
  - intros fr -> Hne ->. destruct (msg_content response); [contradiction | reflexivity].
Qed.



End NormalizerMore.


Lemma convert_response_shape_witness :
  is_ok (fst (convert_response_to_chat_completion Z Sample.unpack Sample.KWARG
                Fixture.text_response (@nil amsg) 0 Sample.client_plain)) = true.
Proof.
  apply (proj2 (convert_response_shape Z Sample.unpack Sample.KWARG amsg
                  Fixture.text_response [] 0 Sample.client_plain eq_refl) "stop");
    [reflexivity | discriminate | reflexivity].
Defined.


(** ** The builder and the normaliser on one client *)

Section ForcedToolRoundTrip.

Variable PydanticMessage : Type.
Variable to_anthropic_dict : PydanticMessage -> string -> bool -> result amsg.
Variable add_inner_thoughts_to_functions :
  list FunctionSchema -> string -> string -> result (list FunctionSchema).
Variable KWARG KWARG_DESCRIPTION : string.
Variable datetime : Type.
Variable unpack_all_inner_thoughts_from_kwargs :
  ChatCompletionResponse datetime -> string -> result (ChatCompletionResponse datetime).

(** X15: after a request built with a forced tool name, the normaliser
    on the same client hands every well-formed response to the
    unpacking helper, also when the configuration had inner thoughts
    not in the tool arguments before the request was built. *)
Theorem forced_tool_response_is_unpacked
    self messages tools tool_call name response
    (input_messages : list PydanticMessage) now finish_reason :
  config_accepted self = true ->
  remap_finish_reason (str_of_stop_reason (msg_stop_reason response)) = Ok finish_reason ->
  msg_content response <> [] ->
  msg_role response = "assistant" ->
  convert_response_to_chat_completion datetime unpack_all_inner_thoughts_from_kwargs KWARG
    response input_messages now
    (snd (build_request_data PydanticMessage to_anthropic_dict
            add_inner_thoughts_to_functions KWARG KWARG_DESCRIPTION
            messages tools tool_call (Some name) self))
  = (unpack_all_inner_thoughts_from_kwargs
       (assemble datetime response finish_reason
          (fold_left scan_part (msg_content response) scan_init) now)
       KWARG,
     force_inner_thoughts self).
Proof.
  intros Hacc Hfr Hne Hrole.
  destruct (build_accepted PydanticMessage to_anthropic_dict add_inner_thoughts_to_functions
              KWARG KWARG_DESCRIPTION self messages tools tool_call (Some name) Hacc)
    as (mt & _ & _ & ->).
  cbn [snd after_tool_selection].
  rewrite convert_closed_form, Hfr, Hrole.
  destruct (msg_content response); [contradiction | reflexivity].
Qed.

End ForcedToolRoundTrip.

Lemma forced_tool_response_is_unpacked_witness :
  convert_response_to_chat_completion Z Sample.unpack Sample.KWARG
    Sample.tool_use_response (@nil amsg) 0
    (snd (build_request_data amsg Sample.to_anthropic_dict
            Sample.add_inner_thoughts_to_functions Sample.KWARG Sample.KWARG_DESCRIPTION
            Sample.conversation [Sample.tool_f] None (Some "f") Sample.client_plain))
  = (Sample.unpack
       (assemble Z Sample.tool_use_response "function_call"
          (fold_left scan_part (msg_content Sample.tool_use_response) scan_init) 0)
       Sample.KWARG,
     force_inner_thoughts Sample.client_plain).
Proof.
  apply (forced_tool_response_is_unpacked amsg Sample.to_anthropic_dict
           Sample.add_inner_thoughts_to_functions Sample.KWARG Sample.KWARG_DESCRIPTION
           Z Sample.unpack Sample.client_plain Sample.conversation [Sample.tool_f] None "f"
           Sample.tool_use_response [] 0 "function_call");
    [reflexivity | reflexivity | discriminate | reflexivity].
Defined.

(** ** Finish reasons, the other way round *)

(** X19: a returned finish reason tells the stop reason it came from,
    up to the two that mean [stop]: [length] comes from [max_tokens]
    only, [function_call] from [tool_use] only, and [stop] from
    [end_turn] or [stop_sequence]; nothing else is ever returned. *)
Theorem remap_finish_reason_preimage (s v : string) :
  remap_finish_reason s = Ok v ->
  (v = "stop" /\ (s = "end_turn" \/ s = "stop_sequence")) \/
  (v = "length" /\ s = "max_tokens") \/
  (v = "function_call" /\ s = "tool_use").
Proof.
  unfold remap_finish_reason.
  destruct (String.eqb_spec s "end_turn") as [->|_]; [intros [= <-]; auto |].
  destruct (String.eqb_spec s "stop_sequence") as [->|_]; [intros [= <-]; auto |].
  destruct (String.eqb_spec s "max_tokens") as [->|_]; [intros [= <-]; auto |].
  destruct (String.eqb_spec s "tool_use") as [->|_]; [intros [= <-]; auto 6 | discriminate].
Qed.

Lemma remap_finish_reason_preimage_witness :
  ("length" = "stop" /\ ("max_tokens" = "end_turn" \/ "max_tokens" = "stop_sequence")) \/
  ("length" = "length" /\ "max_tokens" = "max_tokens") \/
  ("length" = "function_call" /\ "max_tokens" = "tool_use").
Proof.
  apply (remap_finish_reason_preimage "max_tokens" "length"). reflexivity.
Defined.

(** ** The error classifier: codes and delegation *)

Section ClassifierMore.

Variable BaseError : Type.
Variable base_handle_llm_error : py_exception -> BaseError.

Lemma suffix_here (s : string) : exists prefix, s = prefix ++ s.
Proof. now exists EmptyString. Qed.

Lemma suffix_later (c : ascii) (t s : string) :
  (exists prefix, t = prefix ++ s) -> exists prefix, String c t = prefix ++ s.
Proof. intros [p ->]. now exists (String c p). Qed.

(** X20: among the classified errors the rate-limit error alone has
    the code [RATE_LIMIT_EXCEEDED]; every other kind, the bad request
    and the missing resource included, has [INTERNAL_SERVER_ERROR]; and
    the message always ends with the text of the exception. *)
Theorem handle_llm_error_codes (e : py_exception) (err : llm_error) :
  handle_llm_error BaseError base_handle_llm_error e = Classified err ->
  (err_code err = RATE_LIMIT_EXCEEDED <-> err_kind err = LLMRateLimitError) /\
  (err_code err = INTERNAL_SERVER_ERROR <-> err_kind err <> LLMRateLimitError) /\
  exists prefix, err_message err = prefix ++ exc_str e.
Proof.
  unfold handle_llm_error.
  repeat match goal with
         | |- context [if isinstance e ?c then _ else _] => destruct (isinstance e c)
         end.
  all: intros [= <-].
  all: split; [cbn [err_code err_kind]; split; congruence |].
  all: split; [cbn [err_code err_kind]; split; congruence |].
  all: cbn [err_message String.append].
  all: repeat first [apply suffix_here | apply suffix_later].
Qed.


End ClassifierMore.

Lemma handle_llm_error_codes_witness :
  (err_code {| err_kind := LLMRateLimitError;
               err_message := "Rate limited by Anthropic: Error code: 429";
               err_code := RATE_LIMIT_EXCEEDED;
               err_details := NoDetails |} = RATE_LIMIT_EXCEEDED
   <-> err_kind {| err_kind := LLMRateLimitError;
                   err_message := "Rate limited by Anthropic: Error code: 429";
                   err_code := RATE_LIMIT_EXCEEDED;
                   err_details := NoDetails |} = LLMRateLimitError).
Proof.
  apply (proj1 (handle_llm_error_codes string Fixture.base_handler Fixture.rate_limited
                  {| err_kind := LLMRateLimitError;
                     err_message := "Rate limited by Anthropic: Error code: 429";
                     err_code := RATE_LIMIT_EXCEEDED;
                     err_details := NoDetails |} eq_refl)).
Defined.


(** ** Tag stripping: what is left alone *)

Section StripMore.

Import Text Re.









Lemma starts_with_has old s c :
  starts_with old s = true -> occurs c old = true -> occurs c s = true.
Proof.
  revert s. induction old as [|a old IH]; intros s H Hc; [discriminate |].
  destruct s as [|b s]; [discriminate |].
  cbn [starts_with] in H. destruct (Ascii.eqb_spec a b) as [->|]; [| discriminate].
  cbn [occurs] in *. destruct (Ascii.eqb c b); [reflexivity | now apply (IH s)].
Qed.

Lemma replace_without_char old s c :
  occurs c old = true -> occurs c s = false -> replace old EmptyString s = s.
Proof.
  intros Hold Hs. destruct old as [|o old]; [discriminate |].
  cbn [replace]. induction s as [|a s IH]; [reflexivity |].
  cbn [replace_go].
  destruct (starts_with (String o old) (String a s)) eqn:Hst.
  - apply (starts_with_has _ _ c) in Hst; [congruence | assumption].
  - cbn [occurs] in Hs. destruct (Ascii.eqb c a); [discriminate |]. now rewrite IH.
Qed.

(** X24: a text that holds none of [<], [>] and [/] comes out of
    [strip_xml_tags_streaming] unchanged, whatever the tag, set or
    not. *)
Theorem strip_xml_tags_streaming_leaves_plain_text (s : string) (tag : option string) :
  occurs "<" s = false -> occurs ">" s = false -> occurs "/" s = false ->
  strip_xml_tags_streaming s tag = s.
Proof.
  intros Hlt Hgt Hsl. destruct tag as [t|]; [| reflexivity].
  unfold strip_xml_tags_streaming, parts_to_remove. cbn [fold_left].
  rewrite (replace_without_char "<" s "<") by (reflexivity || assumption).
  rewrite (replace_without_char ("<" ++ t) s "<") by (reflexivity || assumption).
  rewrite (replace_without_char ("</" ++ t) s "<") by (reflexivity || assumption).
  rewrite (replace_without_char ("/" ++ t ++ ">") s "/") by (reflexivity || assumption).
  rewrite (replace_without_char (t ++ ">") s ">");
    [| rewrite occurs_app; apply orb_true_r | assumption].
  rewrite (replace_without_char ("/" ++ t) s "/") by (reflexivity || assumption).
  now rewrite (replace_without_char ">" s ">").
Qed.

End StripMore.



Lemma strip_xml_tags_streaming_leaves_plain_text_witness :
  strip_xml_tags_streaming "plain words" (Some "thinking") = "plain words".
Proof.
  apply (strip_xml_tags_streaming_leaves_plain_text "plain words" (Some "thinking"));
    reflexivity.
Defined.

(** ** The request builder: helper failures and the content it sends *)

Section BuildContent.

Variable PydanticMessage : Type.
Variable to_anthropic_dict : PydanticMessage -> string -> bool -> result amsg.
Variable add_inner_thoughts_to_functions :
  list FunctionSchema -> string -> string -> result (list FunctionSchema).
Variable KWARG KWARG_DESCRIPTION : string.

Abbreviation build :=
  (build_request_data PydanticMessage to_anthropic_dict
     add_inner_thoughts_to_functions KWARG KWARG_DESCRIPTION).
Abbreviation tools_ready :=
  (tools_with_kwarg add_inner_thoughts_to_functions KWARG KWARG_DESCRIPTION).
Abbreviation dicts := (translated PydanticMessage to_anthropic_dict).

(** X25: with a configuration that passes the checks, an exception of
    the inner-thoughts helper leaves the call before any message is
    translated, and an exception of the translation of a message leaves
    it before the roles are looked at; a forced tool name has by then
    been written to the configuration. *)
Theorem build_helper_errors self messages tools tool_call force_tool_call e :
  config_accepted self = true ->
  (tools_ready tools force_tool_call (kwargs_mode self force_tool_call) = Raise e ->
   build messages tools tool_call force_tool_call self
   = (Raise e, after_tool_selection self force_tool_call)) /\
  (is_ok (tools_ready tools force_tool_call (kwargs_mode self force_tool_call)) = true ->
   dicts messages (kwargs_mode self force_tool_call) = Raise e ->
   build messages tools tool_call force_tool_call self
   = (Raise e, after_tool_selection self force_tool_call)).
Proof.
  intros Hacc.
  destruct (build_accepted PydanticMessage to_anthropic_dict add_inner_thoughts_to_functions
              KWARG KWARG_DESCRIPTION self messages tools tool_call force_tool_call Hacc)
    as (mt & _ & _ & ->).
  split.
  - intros ->. reflexivity.
  - intros Ht ->.
    destruct (tools_ready tools force_tool_call (kwargs_mode self force_tool_call));
      [reflexivity | discriminate].
Qed.

Lemma run_blocks_app (l1 l2 : list amsg) :
  run_blocks (l1 ++ l2) = (run_blocks l1 ++ run_blocks l2)%list.
Proof. unfold run_blocks. now rewrite map_app, concat_app. Qed.

(** X26: a returned payload sends every content block of the messages
    after the system message, in their order, and adds only the
    placeholder text in front, when that message is needed, and the
    opening thinking tag at the end, when the reply is primed. *)
Theorem build_sends_all_content self messages tools tool_call force_tool_call p self' :
  build messages tools tool_call force_tool_call self = (Ok p, self') ->
  exists first second rest,
    dicts messages (kwargs_mode self force_tool_call) = Ok (first :: second :: rest) /\
    run_blocks (rd_messages p)
    = ((if is_user second then [] else [text_block (JStr DUMMY_FIRST_USER_MESSAGE)])
       ++ run_blocks (second :: rest)
       ++ (if prefill_applies self force_tool_call
           then [text_block (JStr ("<" ++ inner_thoughts_xml_tag ++ ">"))]
           else []))%list.
Proof.
  intros Hb.
  apply (build_ok_inv PydanticMessage to_anthropic_dict add_inner_thoughts_to_functions
           KWARG KWARG_DESCRIPTION) in Hb
    as (_ & _ & mt & tfr & first & rest & handed & _ & _ & _ & Hd & _ & Hh & ->).
  cbn [payload rd_messages].
  apply ensure_first_user_ok in Hh as (second & rest' & -> & Hcase).
  exists first, second, rest'. split; [assumption |].
  assert (Hpre : forall l,
             run_blocks (with_prefill (prefill_applies self force_tool_call) l)
             = (run_blocks l
                ++ (if prefill_applies self force_tool_call
                    then [text_block (JStr ("<" ++ inner_thoughts_xml_tag ++ ">"))]
                    else []))%list).
  { intros l. unfold with_prefill. destruct (prefill_applies self force_tool_call).
    - now rewrite run_blocks_app.
    - now rewrite app_nil_r. }
  rewrite Hpre, merge_preserves_blocks_aux.
  destruct Hcase as [[Hsec ->]|[Hsec ->]]; rewrite Hsec; reflexivity.
Qed.

End BuildContent.

Lemma build_helper_errors_witness :
  build_request_data amsg Fixture.rejecting_to_anthropic_dict
    Sample.add_inner_thoughts_to_functions Sample.KWARG Sample.KWARG_DESCRIPTION
    [Sample.user_hi] [] None None Sample.client_plain
  = (Raise (HelperError "user"), after_tool_selection Sample.client_plain None).
Proof.
  apply (proj2 (build_helper_errors amsg Fixture.rejecting_to_anthropic_dict
                  Sample.add_inner_thoughts_to_functions Sample.KWARG
                  Sample.KWARG_DESCRIPTION Sample.client_plain [Sample.user_hi] [] None None
                  (HelperError "user") eq_refl));
    reflexivity.
Defined.

Lemma build_sends_all_content_witness :
  exists first second rest,
    translated amsg Sample.to_anthropic_dict Sample.conversation
      (kwargs_mode Sample.client_plain None) = Ok (first :: second :: rest) /\
    run_blocks (rd_messages Sample.plain_payload)
    = ((if is_user second then [] else [text_block (JStr DUMMY_FIRST_USER_MESSAGE)])
       ++ run_blocks (second :: rest)
       ++ (if prefill_applies Sample.client_plain None
           then [text_block (JStr ("<" ++ inner_thoughts_xml_tag ++ ">"))]
           else []))%list.
Proof.
  apply (build_sends_all_content amsg Sample.to_anthropic_dict
           Sample.add_inner_thoughts_to_functions Sample.KWARG Sample.KWARG_DESCRIPTION
           Sample.client_plain Sample.conversation [] None None
           Sample.plain_payload Sample.client_plain eq_refl).
Defined.
